(** * cutplace: the CID compiler ([cutplace/cid.py]) and its helpers ([cutplace/_tools.py])

    A shallow embedding of class [Cid]: the row-tag dispatcher [read], the
    field and check compilers [add_field_format] and [add_check], the class
    registry ([_create_name_to_class_map], [_create_class]) and the accessors
    [field_index] and [field_value_for].

    Python objects are records, dictionaries are [gmap]s with string keys,
    lists are lists.  Methods mutate [self] and may raise: they are
    computations in a state-and-exception monad over the [Cid] record, in
    which the state reached when an exception is raised stays observable,
    as it does on the Python object after the exception propagated. *)

From Stdlib Require Import ZArith Ascii String.
From stdpp Require Import gmap strings list fin_maps sorting.

(** ** Python string methods

    Cells, names and rules are text: [str] of Python 3 and [unicode] of
    Python 2 (the modules import [unicode_literals], and
    [validatedPythonName] hands its value to [io.StringIO], which takes
    nothing else).  A character is its code point; the texts of the model
    are those of code points below 256, and [lower] and [strip] are the
    methods of [str] on them. *)

Module PyStr.

(** The characters [str.lower()] changes: [A] to [Z], and the upper case
    letters 192 to 222 of Latin-1 (215, the multiplication sign, is none).
    Each has its lower case letter 32 code points on. *)
Definition is_upper (c : ascii) : bool :=
  let n := nat_of_ascii c in
  ((65 <=? n)%nat && (n <=? 90)%nat)
  || ((192 <=? n)%nat && (n <=? 222)%nat && negb (n =? 215)%nat).

Definition lower_char (c : ascii) : ascii :=
  if is_upper c then ascii_of_nat (nat_of_ascii c + 32) else c.

(** [s.lower()] *)
Fixpoint lower (s : string) : string :=
  match s with
  | EmptyString => EmptyString
  | String c s' => String (lower_char c) (lower s')
  end.

(** Whitespace as [str.strip()] sees it: blank, tab, line feed, vertical tab,
    form feed, carriage return, the four separators 28..31, next line (133)
    and the no-break space (160). *)
Definition is_space (c : ascii) : bool :=
  let n := nat_of_ascii c in
  (n =? 32)%nat || ((9 <=? n)%nat && (n <=? 13)%nat) || ((28 <=? n)%nat && (n <=? 31)%nat)
  || (n =? 133)%nat || (n =? 160)%nat.

Fixpoint lstrip (s : string) : string :=
  match s with
  | EmptyString => EmptyString
  | String c s' => if is_space c then lstrip s' else s
  end.

Fixpoint rstrip (s : string) : string :=
  match s with
  | EmptyString => EmptyString
  | String c s' =>
      match rstrip s' with
      | EmptyString => if is_space c then EmptyString else String c EmptyString
      | r => String c r
      end
  end.

(** [s.strip()] *)
Definition strip (s : string) : string := rstrip (lstrip s).

(** [s.split(sep)] for a one character separator: never the empty list. *)
Fixpoint split (sep : ascii) (s : string) : list string :=
  match s with
  | EmptyString => [EmptyString]
  | String c s' =>
      if Ascii.eqb c sep then EmptyString :: split sep s'
      else match split sep s' with
           | [] => [String c EmptyString]
           | part :: parts => String c part :: parts
           end
  end.

(** [c in s] for a character [c] *)
Fixpoint contains (c : ascii) (s : string) : bool :=
  match s with
  | EmptyString => false
  | String c' s' => Ascii.eqb c' c || contains c s'
  end.

(** Truth value of a string: [if s:] *)
Definition truthy (s : string) : bool :=
  match s with EmptyString => false | _ => true end.

Definition dot : ascii := "."%char.

(** [s.split(".")[-1]] *)
Definition last_dotted (s : string) : string := List.last (split dot s) EmptyString.

End PyStr.

(** ** Python list operations *)

Module PyList.

(** [[x] * n] *)
Definition repeat_item {A} (x : A) (n : nat) : list A := replicate n x.

(** [l[i:]] and [l[:j]] for non-negative bounds *)
Definition slice_from {A} (i : nat) (l : list A) : list A := drop i l.
Definition slice_to {A} (j : nat) (l : list A) : list A := take j l.

(** [l[i:-k]] for non-negative [i] and positive [k] *)
Definition slice_between {A} (i k : nat) (l : list A) : list A :=
  drop i (take (length l - k) l).

End PyList.

(** ** Locations ([errors.InputLocation]) *)

(** Modelled from the spec: module [errors] is not part of the sources.  A
    location is the cursor [{path, line, cell, has_cell}], lines and cells
    counted from 1; [advance_line] resets the cell to the start of the row and
    increments the line, [advance_cell] increments the cell, [set_cell] jumps
    directly.  None of the three raises. *)
Record InputLocation := mkLocation {
  loc_path : string;
  loc_line : nat;
  loc_cell : nat;
  loc_has_cell : bool
}.

Definition START_OF_ROW : nat := 1.

Definition new_InputLocation (path : string) (has_cell : bool) : InputLocation :=
  mkLocation path 1 START_OF_ROW has_cell.

Definition advance_line (l : InputLocation) : InputLocation :=
  mkLocation (loc_path l) (S (loc_line l)) START_OF_ROW (loc_has_cell l).

Definition advance_cell (l : InputLocation) : InputLocation :=
  mkLocation (loc_path l) (loc_line l) (S (loc_cell l)) (loc_has_cell l).

Definition set_cell (n : nat) (l : InputLocation) : InputLocation :=
  mkLocation (loc_path l) (loc_line l) n (loc_has_cell l).

(** ** Collaborating objects *)

(** Modelled from the spec: the length descriptor of a field format (module
    [ranges] is not part of the sources) exposes [items], a list of
    [(lower, upper)] intervals, possibly absent; a missing bound ([None]) is
    an unbounded side. *)
Definition bound := option Z.

Record Range := mkRange {
  items : option (list (bound * bound))
}.

(** Modelled from the spec: [data.DataFormat], the format name and its
    properties; [FORMAT_FIXED] is the name of the fixed-width format. *)
Record DataFormat := mkDataFormat {
  format : string;
  properties : list (string * string)
}.

Definition FORMAT_FIXED : string := "fixed".

(** What [inspect.getsourcefile] does with a class: it returns the path of
    the source file, returns [None] when it finds no source file, or raises
    [TypeError] for a built-in class. *)
Inductive sourcefile :=
  | SourcePath (path : string)
  | SourceNone
  | SourceTypeError.

(** A class object, as far as [_class_info] and the registry look at it:
    [__name__], [__module__] and what [inspect.getsourcefile] does with it. *)
Record pyclass := mkClass {
  class_name : string;
  class_module : string;
  class_sourcefile : sourcefile
}.

(** Modelled from the spec: a field format (module [fields] is not part of
    the sources) is constructed from
    [(name, allow_empty, length_spec, rule, data_format)], exposes the length
    descriptor [length] and a settable [example]. *)
Record FieldFormat := mkFieldFormat {
  ff_class : pyclass;
  ff_field_name : string;
  ff_is_allowed_to_be_empty : bool;
  length_ : Range;
  ff_rule : string;
  example : option string
}.

(** Modelled from the spec: a check (module [checks] is not part of the
    sources) is constructed from [(description, rule, field_names, location)]
    and exposes [location], the location of its definition. *)
Record Check := mkCheck {
  check_class : pyclass;
  description : string;
  rule : string;
  check_field_names : list string;
  location : option InputLocation
}.

(** ** Exceptions *)

Inductive exception_class :=
  | CutplaceError | CidSyntaxError | DataFormatSyntaxError | FieldSyntaxError
  | CheckSyntaxError | FieldLookupError | DataFormatValueError | FieldValueError
  | NameError | AssertionError | AttributeError | IndexError | TypeError
  | StopIteration | OtherError (name : string).

(** The message of an exception: the format string it was built from (one
    constructor each) and the values formatted into it. *)
Inductive message :=
  | MsgDataFormatNameMissing
  | MsgRowType (row_type : string)
  | MsgDataFormatBeforeField
  | MsgEmptyMark (indicator text : string)
  | MsgFieldNameTwice (field_name : string)
  | MsgExample (field_name : string) (cause : message)
  | MsgFixedLengthAtLeastOne (field_name : string) (length : Range)
  | MsgFixedLengthSingle (field_name : string) (length : Range)
  | MsgFixedLengthMissing (field_name : string)
  | MsgFieldRowEmpty (row_mark : string)
  | MsgCheckRowTooShort (row_mark : string)
  | MsgCheckType (known : gset string) (cells : list string)
  | MsgCheckDescriptionTwice (check_description : string)
  | MsgUnknownFieldName (field_name known : string)
  | MsgRowItemCount (expected actual : nat) (row : list string)
  | MsgCannotFindClass (type_name class_qualifier class_name known : string)
  | MsgClashingClasses (clashing_info processed_info : string)
  | MsgNameEmpty (name value : string)
  | MsgNameNotAscii (name value : string)
  | MsgNameNotSingleWord (name result second : string)
  | MsgNoAttribute (attribute : string)
  | MsgText (text : string)
  | MsgNone.

Record exception := mkException {
  exc_class : exception_class;
  exc_message : message;
  exc_location : option InputLocation;
  exc_see_also_message : option string;
  exc_see_also_location : option InputLocation
}.

#[global] Instance exception_class_eq_dec : EqDecision exception_class.
Proof. solve_decision. Defined.

(** ** The [Cid] object *)

Record Cid := mkCid {
  _data_format : option DataFormat;
  _field_names : list string;
  _field_formats : list FieldFormat;
  _field_name_to_format_map : gmap string FieldFormat;
  _field_name_to_index_map : gmap string nat;
  _check_names : list string;
  _check_name_to_check_map : gmap string Check;
  accepted_count : nat;
  rejected_count : nat;
  failed_checks_at_end_count : nat;
  passed_checks_at_end_count : nat;
  _location : option InputLocation;
  _check_name_to_class_map : gmap string pyclass;
  _field_format_name_to_class_map : gmap string pyclass
}.

Definition _EMPTY_INDICATOR : string := "x".
Definition _ID_CHECK : string := "c".
Definition _ID_DATA_FORMAT : string := "d".
Definition _ID_FIELD_RULE : string := "f".
Definition _VALID_IDS : list string := [_ID_CHECK; _ID_DATA_FORMAT; _ID_FIELD_RULE].

(** ** Methods that mutate [self] and may raise *)

Inductive outcome (A : Type) :=
  | Returned (a : A)
  | Raised (e : exception).
Arguments Returned {A} a.
Arguments Raised {A} e.

(** A method body: from the object before the call to what the call produced
    and the object after it (also when it raised). *)
Definition M (A : Type) : Type := Cid → outcome A * Cid.

#[global] Instance M_ret : MRet M := λ A a self, (Returned a, self).

#[global] Instance M_bind : MBind M := λ A B f m self,
  match m self with
  | (Returned a, self') => f a self'
  | (Raised e, self') => (Raised e, self')
  end.

Definition raise {A} (e : exception) : M A := λ self, (Raised e, self).

Definition get_self : M Cid := λ self, (Returned self, self).

Definition modify (f : Cid → Cid) : M unit := λ self, (Returned (), f self).

(** The result of a call that does not touch [self]. *)
Definition lift {A} (r : outcome A) : M A := λ self, (r, self).

(** [assert condition] *)
Definition assert (condition : bool) : M unit :=
  if condition then mret () else raise (mkException AssertionError MsgNone None None None).

Definition assert_pure (condition : bool) : outcome unit :=
  if condition then Returned () else Raised (mkException AssertionError MsgNone None None None).

Definition bind_outcome {A B} (r : outcome A) (f : A → outcome B) : outcome B :=
  match r with
  | Returned a => f a
  | Raised e => Raised e
  end.

(** Assignments to the attributes of [self] *)
Definition set__data_format (v : option DataFormat) (self : Cid) : Cid :=
  mkCid v (_field_names self) (_field_formats self) (_field_name_to_format_map self)
    (_field_name_to_index_map self) (_check_names self) (_check_name_to_check_map self)
    (accepted_count self) (rejected_count self) (failed_checks_at_end_count self)
    (passed_checks_at_end_count self) (_location self) (_check_name_to_class_map self)
    (_field_format_name_to_class_map self).

Definition set__location (v : option InputLocation) (self : Cid) : Cid :=
  mkCid (_data_format self) (_field_names self) (_field_formats self)
    (_field_name_to_format_map self) (_field_name_to_index_map self) (_check_names self)
    (_check_name_to_check_map self) (accepted_count self) (rejected_count self)
    (failed_checks_at_end_count self) (passed_checks_at_end_count self) v
    (_check_name_to_class_map self) (_field_format_name_to_class_map self).

Definition set_fields (names : list string) (formats : list FieldFormat)
    (to_format : gmap string FieldFormat) (to_index : gmap string nat) (self : Cid) : Cid :=
  mkCid (_data_format self) names formats to_format to_index (_check_names self)
    (_check_name_to_check_map self) (accepted_count self) (rejected_count self)
    (failed_checks_at_end_count self) (passed_checks_at_end_count self) (_location self)
    (_check_name_to_class_map self) (_field_format_name_to_class_map self).

Definition set_checks (names : list string) (to_check : gmap string Check) (self : Cid) : Cid :=
  mkCid (_data_format self) (_field_names self) (_field_formats self)
    (_field_name_to_format_map self) (_field_name_to_index_map self) names to_check
    (accepted_count self) (rejected_count self) (failed_checks_at_end_count self)
    (passed_checks_at_end_count self) (_location self) (_check_name_to_class_map self)
    (_field_format_name_to_class_map self).

(** [self._location.method()]: the cursor is one object, mutated in place; on
    [None] the attribute lookup fails. *)
Definition on_location (method : InputLocation → InputLocation) : M unit := λ self,
  match _location self with
  | Some l => (Returned (), set__location (Some (method l)) self)
  | None => (Raised (mkException AttributeError (MsgNoAttribute "_location") None None None), self)
  end.

(** [items[i]] *)
Definition item_at {A} (l : list A) (i : nat) : outcome A :=
  match l !! i with
  | Some x => Returned x
  | None => Raised (mkException IndexError MsgNone None None None)
  end.

(** ** What the interpreter and the modules outside the sources provide *)

Inductive token_type :=
  | ENDMARKER | NAME | NUMBER | STRING | NEWLINE | INDENT | DEDENT | OP | OTHER (n : nat).

Definition ISEOF (t : token_type) : bool :=
  match t with ENDMARKER => true | _ => false end.

Definition is_NAME (t : token_type) : bool :=
  match t with NAME => true | _ => false end.

Record Externals := mkExternals {
  (** [repr(s)], as [%r] formats a string *)
  repr : string → string;
  (** [tokenize.generate_tokens] on the lines of a text: types and texts *)
  generate_tokens : string → list (token_type * string);
  (** [None < n]: nothing is raised and the result is [True] on Python 2,
      where [None] orders below every number; Python 3 raises a
      [TypeError] *)
  none_lt : Z → option exception;
  (** [fields.validated_field_name(name, location)] *)
  validated_field_name : string → option InputLocation → outcome string;
  (** [data.DataFormat(format, location)] *)
  new_DataFormat : string → option InputLocation → outcome DataFormat;
  (** [data_format.set_property(name, value)] *)
  set_property : DataFormat → string → string → outcome DataFormat;
  (** [field_class.__new__] followed by [__init__] *)
  new_field_format :
    pyclass → string → bool → option string → string → option DataFormat → outcome FieldFormat;
  (** [field_format.example = value] *)
  set_example : FieldFormat → string → outcome FieldFormat;
  (** what [check_class.__init__] raises, if it does *)
  check_init : pyclass → string → string → list string → option InputLocation → option exception;
  (** [errors.create_caller_input_location()] *)
  create_caller_input_location : InputLocation
}.

Section Compiler.

Context (X : Externals).

(** ** [_tools.py] *)

(** [validatedPythonName(name, value)] *)
Definition validatedPythonName (name value : string) : outcome string :=
  bind_outcome (assert_pure (PyStr.truthy name)) (λ _,
  let toky := generate_tokens X (PyStr.strip value) in
  match toky with
  | [] => Raised (mkException StopIteration MsgNone None None None)
  | (nextType, result) :: toky' =>
      if ISEOF nextType then
        Raised (mkException NameError (MsgNameEmpty name value) None None None)
      else if negb (is_NAME nextType) then
        Raised (mkException NameError (MsgNameNotAscii name value) None None None)
      else
        match toky' with
        | [] => Raised (mkException StopIteration MsgNone None None None)
        | (secondTokenType, secondTokenText) :: _ =>
            if negb (ISEOF secondTokenType) then
              Raised (mkException NameError (MsgNameNotSingleWord name result secondTokenText)
                        None None None)
            else Returned result
        end
  end).

(** The loop of [humanReadableList]: one pass of its body for the item at
    [itemIndex]. *)
Definition humanReadableList_step (itemCount : nat) (result : string)
    (indexed : nat * string) : string :=
  let '(itemIndex, item) := indexed in
  let result :=
    if (itemIndex =? itemCount - 1)%nat then result +:+ " or "
    else if (0 <? itemIndex)%nat then result +:+ ", "
    else result in
  result +:+ repr X item.

(** [humanReadableList(items)] *)
Definition humanReadableList (items : list string) : string :=
  let itemCount := length items in
  match items with
  | [] => EmptyString
  | [item] => repr X item
  | _ => fold_left (humanReadableList_step itemCount) (zip (seq 0 itemCount) items) EmptyString
  end.

(** [sorted(names)]: strings in lexicographic order of their characters *)
Definition string_le (a b : string) : Prop := String.leb a b = true.

#[local] Instance string_le_dec a b : Decision (string_le a b).
Proof. unfold string_le. apply _. Defined.

Definition sorted (names : list string) : list string := merge_sort string_le names.

(** [d.keys()], in the order in which they are handed on to [sorted] *)
Definition keys {V} (d : gmap string V) : list string := elements (dom d).

(** ** The class registry *)

Definition quote : string := String (ascii_of_nat 34) EmptyString.

(** [_class_info(some_class)] *)
Definition _class_info (some_class : pyclass) : outcome string :=
  let qualified_name := class_module some_class +:+ "." +:+ class_name some_class in
  let source_path :=
    match class_sourcefile some_class with
    | SourcePath path => Some path
    | SourceNone => None
    | SourceTypeError => Some "(internal)"
    end in
  match source_path with
  | Some source_path =>
      Returned (qualified_name +:+ " (see: " +:+ quote +:+ source_path +:+ quote +:+ ")")
  | None => Raised (mkException TypeError MsgNone None None None)
  end.

(** One pass of the loop of [_create_name_to_class_map]. *)
Definition _create_name_to_class_map_step (result : gmap string pyclass)
    (class_to_process : pyclass) : outcome (gmap string pyclass) :=
  let qualified_class_name := class_name class_to_process in
  let plain_class_name := PyStr.last_dotted qualified_class_name in
  match result !! plain_class_name with
  | Some clashing_class =>
      bind_outcome (_class_info clashing_class) (λ clashing_class_info,
      bind_outcome (_class_info class_to_process) (λ class_to_process_info,
      if decide (clashing_class_info = class_to_process_info) then Returned result
      else Raised (mkException CutplaceError
                     (MsgClashingClasses clashing_class_info class_to_process_info)
                     None None None)))
  | None => Returned (<[plain_class_name := class_to_process]> result)
  end.

(** [_create_name_to_class_map(base_class)], on the subclasses of
    [base_class] in the order in which the set of them is iterated. *)
Fixpoint _create_name_to_class_map_from (result : gmap string pyclass)
    (subclasses : list pyclass) : outcome (gmap string pyclass) :=
  match subclasses with
  | [] => Returned result
  | class_to_process :: rest =>
      bind_outcome (_create_name_to_class_map_step result class_to_process)
        (λ result', _create_name_to_class_map_from result' rest)
  end.

Definition _create_name_to_class_map (subclasses : list pyclass) : outcome (gmap string pyclass) :=
  _create_name_to_class_map_from ∅ subclasses.

(** [_create_class(name_to_class_map, class_qualifier, class_name_appendix,
    type_name, error_to_raise_on_unknown_class)] *)
Definition _create_class (name_to_class_map : gmap string pyclass)
    (class_qualifier class_name_appendix type_name : string)
    (error_to_raise_on_unknown_class : exception_class) : outcome pyclass :=
  bind_outcome (assert_pure (negb (bool_decide (name_to_class_map = ∅)))) (λ _,
  bind_outcome (assert_pure (PyStr.truthy class_qualifier)) (λ _,
  bind_outcome (assert_pure (PyStr.truthy class_name_appendix)) (λ _,
  bind_outcome (assert_pure (PyStr.truthy type_name)) (λ _,
  let class_name := PyStr.last_dotted class_qualifier +:+ class_name_appendix in
  match name_to_class_map !! class_name with
  | None =>
      Raised (mkException error_to_raise_on_unknown_class
                (MsgCannotFindClass type_name class_qualifier class_name
                   (humanReadableList (sorted (keys name_to_class_map))))
                None None None)
  | Some result => Returned result
  end)))).

(** [_create_field_format_class(field_type)] *)
Definition _create_field_format_class (self : Cid) (field_type : string) : outcome pyclass :=
  bind_outcome (assert_pure (PyStr.truthy field_type)) (λ _,
  _create_class (_field_format_name_to_class_map self) field_type "FieldFormat" "field"
    FieldSyntaxError).

(** [_create_check_class(check_type)] *)
Definition _create_check_class (self : Cid) (check_type : string) : outcome pyclass :=
  bind_outcome (assert_pure (PyStr.truthy check_type)) (λ _,
  _create_class (_check_name_to_class_map self) check_type "Check" "check" CheckSyntaxError).

(** [Cid()]: [__init__] with the subclasses of [checks.AbstractCheck] and of
    [fields.AbstractFieldFormat] known when it runs. *)
Definition new_Cid (check_classes field_format_classes : list pyclass) : outcome Cid :=
  bind_outcome (_create_name_to_class_map check_classes) (λ check_map,
  bind_outcome (_create_name_to_class_map field_format_classes) (λ field_format_map,
  Returned (mkCid None [] [] ∅ ∅ [] ∅ 0 0 0 0 None check_map field_format_map))).

(** [raise error_class(message, self._location)] *)
Definition raise_located {A} (c : exception_class) (m : message) : M A := λ self,
  (Raised (mkException c m (_location self) None None), self).

(** ** [add_field_format] *)

(** The loop over the dotted parts of the field type (lines 238-241). *)
Fixpoint field_type_loop (field_type : string) (field_type_parts : list string) : outcome string :=
  match field_type_parts with
  | [] => Returned field_type
  | part :: rest =>
      let field_type := if PyStr.truthy field_type then field_type +:+ "." else field_type in
      bind_outcome (validatedPythonName "field type part" part) (λ validated,
      field_type_loop (field_type +:+ validated) rest)
  end.

(** What the cells of a field row were read as, and the format made of them. *)
Record field_row := mkFieldRow {
  field_name : string;
  field_example : option string;
  field_is_allowed_to_be_empty : bool;
  field_length : option string;
  field_type : string;
  field_rule : string;
  field_format : FieldFormat
}.

(** Lines 206-257: read the cells one by one, advancing the cursor, resolve
    the class of the field type and construct the field format. *)
Definition read_field_items (items : list string) : M field_row :=
  let item_count := length items in
  self ← get_self;
  item ← lift (item_at items 0);
  field_name ← lift (validated_field_name X item (_location self));
  field_example ←
    (if (2 <=? item_count)%nat then
       on_location advance_cell;;
       item ← lift (item_at items 1);
       mret (Some item)
     else mret None);
  field_is_allowed_to_be_empty ←
    (if (3 <=? item_count)%nat then
       on_location advance_cell;;
       item ← lift (item_at items 2);
       let field_is_allowed_to_be_empty_text := PyStr.lower (PyStr.strip item) in
       if String.eqb field_is_allowed_to_be_empty_text _EMPTY_INDICATOR then mret true
       else if PyStr.truthy field_is_allowed_to_be_empty_text then
         raise_located FieldSyntaxError
           (MsgEmptyMark _EMPTY_INDICATOR field_is_allowed_to_be_empty_text)
       else mret false
     else mret false);
  field_length ←
    (if (4 <=? item_count)%nat then
       on_location advance_cell;;
       item ← lift (item_at items 3);
       mret (Some (PyStr.strip item))
     else mret None);
  field_type ←
    (if (5 <=? item_count)%nat then
       on_location advance_cell;;
       item ← lift (item_at items 4);
       let field_type_item := PyStr.strip item in
       if PyStr.truthy field_type_item then
         let field_type_parts := PyStr.split PyStr.dot field_type_item in
         match bind_outcome (field_type_loop EmptyString field_type_parts) (λ field_type,
               bind_outcome (assert_pure (PyStr.truthy field_type)) (λ _,
               Returned field_type)) with
         | Returned field_type => mret (Some field_type)
         | Raised error =>
             if decide (exc_class error = NameError)
             then raise_located FieldSyntaxError (exc_message error)
             else raise error
         end
       else mret None
     else mret None);
  field_rule ←
    (if (6 <=? item_count)%nat then
       on_location advance_cell;;
       item ← lift (item_at items 5);
       mret (PyStr.strip item)
     else mret EmptyString);
  let field_type :=
    match field_type with
    | Some t => if PyStr.truthy t then t else "Text"
    | None => "Text"
    end in
  self ← get_self;
  field_class ← lift (_create_field_format_class self field_type);
  field_format ← lift (new_field_format X field_class field_name field_is_allowed_to_be_empty
                         field_length field_rule (_data_format self));
  mret (mkFieldRow field_name field_example field_is_allowed_to_be_empty field_length
          field_type field_rule field_format).

(** Lines 259-263: the field name must be new. *)
Definition validate_unique_field_name (field_name : string) : M unit :=
  self ← get_self;
  if bool_decide (is_Some (_field_name_to_format_map self !! field_name)) then
    on_location (set_cell 1);;
    raise_located FieldSyntaxError (MsgFieldNameTwice field_name)
  else mret ().

(** Lines 265-271: set the example, which validates it. *)
Definition validate_example (field_name : string) (field_example : option string)
    (field_format : FieldFormat) : M FieldFormat :=
  match field_example with
  | Some text =>
      if PyStr.truthy text then
        match set_example X field_format text with
        | Returned field_format' => mret field_format'
        | Raised error =>
            if decide (exc_class error = FieldValueError) then
              on_location (set_cell 2);;
              raise_located CidSyntaxError (MsgExample field_name (exc_message error))
            else raise error
        end
      else mret field_format
  | None => mret field_format
  end.

(** [lower == upper] and [lower < n] on bounds that may be [None] *)
Definition bound_eqb (lower upper : bound) : bool := bool_decide (lower = upper).

Definition bound_ltb (lower : bound) (n : Z) : outcome bool :=
  match lower with
  | Some l => Returned (l <? n)%Z
  | None =>
      match none_lt X n with
      | None => Returned true
      | Some error => Raised error
      end
  end.

(** Lines 273-291: under the fixed format the length is one interval
    [(n, n)] with [n] at least 1. *)
Definition validate_fixed_length (data_format : DataFormat) (field_name : string)
    (field_format : FieldFormat) : M unit :=
  if String.eqb (format data_format) FORMAT_FIXED then
    on_location (set_cell 4);;
    match items (length_ field_format) with
    | Some ((lower, upper) :: others) =>
        field_length_is_broken ←
          (if (length ((lower, upper) :: others) =? 1)%nat then
             if bound_eqb lower upper then
               below ← lift (bound_ltb lower 1);
               if (below : bool) then
                 raise_located FieldSyntaxError
                   (MsgFixedLengthAtLeastOne field_name (length_ field_format))
               else mret false
             else mret true
           else mret true);
        if (field_length_is_broken : bool) then
          raise_located FieldSyntaxError (MsgFixedLengthSingle field_name (length_ field_format))
        else mret ()
    | _ => raise_located FieldSyntaxError (MsgFixedLengthMissing field_name)
    end
  else mret ().

(** Lines 293-297: enter the field into the two maps and the two lists. *)
Definition register_field (field_name : string) (field_format : FieldFormat) : M unit :=
  on_location (set_cell 1);;
  modify (λ self,
    set_fields (_field_names self ++ [field_name]) (_field_formats self ++ [field_format])
      (<[field_name := field_format]> (_field_name_to_format_map self))
      (<[field_name := length (_field_names self)]> (_field_name_to_index_map self)) self).

(** [add_field_format(items)] *)
Definition add_field_format (items : list string) : M unit :=
  self ← get_self;
  assert (bool_decide (is_Some (_location self)));;
  match _data_format self with
  | None => raise_located CidSyntaxError MsgDataFormatBeforeField
  | Some data_format =>
      let field_count := length (_field_names self) in
      assert (length (_field_formats self) =? field_count)%nat;;
      assert (size (_field_name_to_format_map self) =? field_count)%nat;;
      assert (size (_field_name_to_index_map self) =? field_count)%nat;;
      let item_count := length items in
      if (1 <=? item_count)%nat then
        parsed ← read_field_items items;
        validate_unique_field_name (field_name parsed);;
        field_format ← validate_example (field_name parsed) (field_example parsed)
                          (field_format parsed);
        validate_fixed_length data_format (field_name parsed) field_format;;
        register_field (field_name parsed) field_format;;
        assert (PyStr.truthy (field_name parsed));;
        assert (PyStr.truthy (field_type parsed))
      else raise_located FieldSyntaxError (MsgFieldRowEmpty _ID_FIELD_RULE)
  end.

(** ** [add_check] *)

(** One pass of the loop that looks for the check type (lines 320-324). *)
Definition check_type_scan_step (class_map : gmap string pyclass) (items : list string)
    (found : option string * nat) (i : nat) : option string * nat :=
  match items !! i with
  | Some item =>
      let check_class_name := item +:+ "Check" in
      if bool_decide (is_Some (class_map !! check_class_name)) then (Some item, S i) else found
  | None => found
  end.

(** The loop [for i in range(1, len(items))], from [check_type = None] and
    [rule_index = 2]. *)
Definition check_type_scan (class_map : gmap string pyclass) (items : list string)
    : option string * nat :=
  fold_left (check_type_scan_step class_map items) (seq 1 (length items - 1)) (None, 2).

(** [not check_type] *)
Definition no_check_type (check_type : option string) : bool :=
  match check_type with
  | Some t => negb (PyStr.truthy t)
  | None => true
  end.

(** Lines 311-331: the description, the check type and the rule of a check
    row. *)
Definition read_check_items (items : list string) : M (string * string * string) :=
  let item_count := length items in
  if (item_count <? 2)%nat then
    raise_located CheckSyntaxError (MsgCheckRowTooShort _ID_CHECK)
  else
    check_description ← lift (item_at items 0);
    self ← get_self;
    let '(check_type, rule_index) := check_type_scan (_check_name_to_class_map self) items in
    if no_check_type check_type then
      raise_located CheckSyntaxError
        (MsgCheckType (dom (_check_name_to_class_map self)) (PyList.slice_between 1 2 items))
    else
      let check_type := default EmptyString check_type in
      check_rule ←
        (if (3 <=? item_count)%nat then lift (item_at items rule_index) else mret EmptyString);
      mret (check_description, check_type, check_rule).

(** [add_check(items)] *)
Definition add_check (items : list string) : M unit :=
  '(check_description, check_type, check_rule) ← read_check_items items;
  self ← get_self;
  check_class ← lift (_create_check_class self check_type);
  check ←
    match check_init X check_class check_description check_rule (_field_names self)
            (_location self) with
    | Some error => raise error
    | None => mret (mkCheck check_class check_description check_rule (_field_names self)
                      (_location self))
    end;
  on_location (set_cell 1);;
  self ← get_self;
  match _check_name_to_check_map self !! check_description with
  | Some existing_check =>
      raise (mkException CheckSyntaxError (MsgCheckDescriptionTwice check_description)
               (_location self) (Some "initial declaration") (location existing_check))
  | None =>
      modify (λ self,
        set_checks (_check_names self ++ [check_description])
          (<[check_description := check]> (_check_name_to_check_map self)) self);;
      self ← get_self;
      assert (length (_check_names self) =? size (_check_name_to_check_map self))%nat
  end.

(** ** [read] *)

(** [(row[1:] + [''] * 6)[:6]] *)
Definition row_data_of (row : list string) : list string :=
  PyList.slice_to 6 (PyList.slice_from 1 row ++ PyList.repeat_item EmptyString 6).

(** The body of the loop of [read] for one row. *)
Definition read_row (row : list string) : M unit :=
  match row with
  | [] => mret ()
  | tag :: _ =>
      let row_type := PyStr.lower tag in
      let row_data := row_data_of row in
      if String.eqb row_type "d" then
        match PyList.slice_to 2 row_data with
        | [name; value] =>
            on_location advance_cell;;
            (if String.eqb name EmptyString
             then raise_located DataFormatSyntaxError MsgDataFormatNameMissing
             else mret ());;
            on_location advance_cell;;
            self ← get_self;
            match _data_format self with
            | None =>
                data_format ← lift (new_DataFormat X (PyStr.lower value) (_location self));
                modify (set__data_format (Some data_format))
            | Some data_format =>
                data_format ← lift (set_property X data_format (PyStr.lower name)
                                      (PyStr.lower value));
                modify (set__data_format (Some data_format))
            end
        | _ => raise (mkException (OtherError "ValueError") MsgNone None None None)
        end
      else if String.eqb row_type "f" then add_field_format row_data
      else if String.eqb row_type "c" then add_check row_data
      else if negb (String.eqb row_type EmptyString) then
        raise_located DataFormatSyntaxError (MsgRowType row_type)
      else mret ()
  end;;
  on_location advance_line.

(** The loop [for row in rows]. *)
Fixpoint read_rows (rows : list (list string)) : M unit :=
  match rows with
  | [] => mret ()
  | row :: rest => read_row row;; read_rows rest
  end.

(** [read(source_path, rows)] *)
Definition read (source_path : string) (rows : list (list string)) : M unit :=
  modify (set__location (Some (new_InputLocation source_path true)));;
  read_rows rows.

(** ** Accessors *)

(** [field_index(field_name)] *)
Definition field_index (field_name : string) : M nat :=
  self ← get_self;
  match _field_name_to_index_map self !! field_name with
  | Some result => mret result
  | None =>
      raise (mkException FieldLookupError
               (MsgUnknownFieldName field_name (humanReadableList (sorted (_field_names self))))
               None None None)
  end.

(** The names under which attribute lookup on a [Cid] object finds
    something: what [__init__] assigns, then what the class body defines. *)
Definition Cid_attributes : list string :=
  [ "_data_format"; "_field_names"; "_field_formats"; "_field_name_to_format_map";
    "_field_name_to_index_map"; "_check_names"; "_check_name_to_check_map";
    "_validation_listeners"; "accepted_count"; "rejected_count";
    "failed_checks_at_end_count"; "passed_checks_at_end_count"; "_location";
    "_check_name_to_class_map"; "_field_format_name_to_class_map";
    "_EMPTY_INDICATOR"; "_ID_CHECK"; "_ID_DATA_FORMAT"; "_ID_FIELD_RULE"; "_VALID_IDS";
    "__init__"; "data_format"; "field_names"; "field_formats"; "check_names"; "check_map";
    "_reset_counts"; "_class_info"; "_create_name_to_class_map"; "_create_class";
    "_create_field_format_class"; "_create_check_class"; "read"; "add_field_format";
    "add_check"; "field_index"; "field_value_for"; "field_format_for"; "field_format_at";
    "check_for" ].

(** [self.<attribute>(field_name)] where the result is used as an index.
    Under a name that is no attribute the lookup raises [AttributeError];
    [field_index] is the one attribute that is called this way with sense. *)
Definition call_index_method (attribute field_name : string) : M nat :=
  if bool_decide (attribute ∈ Cid_attributes) then
    if String.eqb attribute "field_index" then field_index field_name
    else raise (mkException TypeError MsgNone None None None)
  else raise (mkException AttributeError (MsgNoAttribute attribute) None None None).

(** [field_value_for(field_name, row)] *)
Definition field_value_for (field_name : string) (row : list string) : M string :=
  self ← get_self;
  let actual_row_count := length row in
  let expected_row_count := length (_field_names self) in
  if negb (actual_row_count =? expected_row_count)%nat then
    modify (set__location (Some (create_caller_input_location X)));;
    raise_located DataFormatValueError (MsgRowItemCount expected_row_count actual_row_count row)
  else
    field_index ← call_index_method "get_field_name_index" field_name;
    assert (field_index <? length row)%nat;;
    lift (item_at row field_index).

(** [field_format_for(field_name)] *)
Definition field_format_for (field_name : string) : M FieldFormat :=
  self ← get_self;
  match _field_name_to_format_map self !! field_name with
  | Some result => mret result
  | None => raise (mkException (OtherError "KeyError") MsgNone None None None)
  end.

(** [field_format_at(field_index)] *)
Definition field_format_at (field_index : nat) : M FieldFormat :=
  self ← get_self;
  lift (item_at (_field_formats self) field_index).

(** [check_for(check_name)] *)
Definition check_for (check_name : string) : M Check :=
  self ← get_self;
  match _check_name_to_check_map self !! check_name with
  | Some result => mret result
  | None => raise (mkException (OtherError "KeyError") MsgNone None None None)
  end.

End Compiler.

Arguments validatedPythonName X name value : assert.
Arguments humanReadableList X items : assert.

(** ** A small set of collaborators, to run the compiler on examples *)

Module Fixture.

Definition digit_value (c : ascii) : option Z :=
  let n := nat_of_ascii c in
  if (48 <=? n)%nat && (n <=? 57)%nat then Some (Z.of_nat (n - 48)) else None.

Fixpoint decimal_from (acc : Z) (s : string) : option Z :=
  match s with
  | EmptyString => Some acc
  | String c s' =>
      match digit_value c with
      | Some d => decimal_from (10 * acc + d)%Z s'
      | None => None
      end
  end.

Definition decimal (s : string) : option Z :=
  match s with
  | EmptyString => None
  | _ => decimal_from 0 s
  end.

(** ["n"] is [(n, n)], ["l:u"] is [(l, u)] with either side possibly empty. *)
Definition interval_of (text : string) : list (bound * bound) :=
  match PyStr.split ":"%char text with
  | [single] => match decimal single with Some n => [(Some n, Some n)] | None => [] end
  | [lower; upper] => [(decimal lower, decimal upper)]
  | _ => []
  end.

Definition range_of (text : option string) : Range :=
  match text with
  | Some (String c s) => mkRange (Some (concat (map interval_of (PyStr.split ","%char (String c s)))))
  | _ => mkRange None
  end.

Definition is_name_char (c : ascii) : bool :=
  let n := nat_of_ascii c in
  ((97 <=? n)%nat && (n <=? 122)%nat) || ((65 <=? n)%nat && (n <=? 90)%nat)
  || ((48 <=? n)%nat && (n <=? 57)%nat) || (n =? 95)%nat.

Fixpoint all_name_chars (s : string) : bool :=
  match s with
  | EmptyString => true
  | String c s' => is_name_char c && all_name_chars s'
  end.

Definition tokens (text : string) : list (token_type * string) :=
  match text with
  | EmptyString => [(ENDMARKER, EmptyString)]
  | _ => if all_name_chars text then [(NAME, text); (ENDMARKER, EmptyString)]
         else [(OP, text); (ENDMARKER, EmptyString)]
  end.

(** Collaborators that accept everything. *)
Definition permissive : Externals := {|
  repr := λ s, "'" +:+ s +:+ "'";
  generate_tokens := tokens;
  none_lt := λ _, None;
  validated_field_name := λ name _, Returned name;
  new_DataFormat := λ name _, Returned (mkDataFormat name []);
  set_property := λ data_format name value,
    Returned (mkDataFormat (format data_format) (properties data_format ++ [(name, value)]));
  new_field_format := λ class name empty length rule _,
    Returned (mkFieldFormat class name empty (range_of length) rule None);
  set_example := λ field_format text,
    Returned (mkFieldFormat (ff_class field_format) (ff_field_name field_format)
                (ff_is_allowed_to_be_empty field_format) (length_ field_format)
                (ff_rule field_format) (Some text));
  check_init := λ _ _ _ _ _, None;
  create_caller_input_location := mkLocation "<caller>" 1 1 false
|}.

(** A field name is a Python name; what is wrong with it is reported as a
    [FieldSyntaxError] at the location. *)
Definition field_name_of (name : string) (location : option InputLocation) : outcome string :=
  match validatedPythonName permissive "field name" name with
  | Returned result => Returned result
  | Raised error => Raised (mkException FieldSyntaxError (exc_message error) location None None)
  end.

(** The collaborators of the examples: field names are validated, and the
    example [invalid] is invalid for every format. *)
Definition externals : Externals := {|
  repr := repr permissive;
  generate_tokens := generate_tokens permissive;
  none_lt := none_lt permissive;
  validated_field_name := field_name_of;
  new_DataFormat := new_DataFormat permissive;
  set_property := set_property permissive;
  new_field_format := new_field_format permissive;
  set_example := λ field_format text,
    if String.eqb text "invalid"
    then Raised (mkException FieldValueError (MsgText "invalid example") None None None)
    else set_example permissive field_format text;
  check_init := check_init permissive;
  create_caller_input_location := create_caller_input_location permissive
|}.

Definition check_classes : list pyclass :=
  [ mkClass "IsUniqueCheck" "cutplace.checks" (SourcePath "checks.py");
    mkClass "DistinctCountCheck" "cutplace.checks" (SourcePath "checks.py") ].

Definition field_format_classes : list pyclass :=
  [ mkClass "TextFieldFormat" "cutplace.fields" (SourcePath "fields.py");
    mkClass "IntegerFieldFormat" "cutplace.fields" (SourcePath "fields.py");
    mkClass "ChoiceFieldFormat" "cutplace.fields" (SourcePath "fields.py") ].

(** [Cid()], or an object without classes should the registry clash. *)
Definition cid : Cid :=
  match new_Cid check_classes field_format_classes with
  | Returned self => self
  | Raised _ => mkCid None [] [] ∅ ∅ [] ∅ 0 0 0 0 None ∅ ∅
  end.

(** [cid.read("icd", rows)] on a new object: what it raised, and the object. *)
Definition compile (rows : list (list string)) : outcome unit * Cid :=
  read externals "icd" rows cid.

End Fixture.

(** ** Vocabulary of the properties *)

(** The schema model of an object: everything but the cursor. *)
Definition model (self : Cid) : Cid := set__location None self.

(** A method body that leaves a part of the object as it was, whether it
    returns or raises. *)
Definition keeps {A T} (part : Cid → T) (m : M A) : Prop :=
  ∀ self, part (m self).2 = part self.

(** A method body after which a property of the object still holds, whether
    it returns or raises. *)
Definition preserves {A} (P : Cid → Prop) (m : M A) : Prop :=
  ∀ self, P self → P (m self).2.

Definition has_location (self : Cid) : Prop := is_Some (_location self).

(** A method body that moves the cursor at most. *)
Definition cursor_only {A} (m : M A) : Prop := keeps model m.

(** The fields of the schema model, and its checks. *)
Definition fields_of (self : Cid) :=
  (_field_names self, _field_formats self, _field_name_to_format_map self,
   _field_name_to_index_map self).

Definition checks_of (self : Cid) := (_check_names self, _check_name_to_check_map self).

(** Rows by their tag. *)
Definition is_data_format_row (row : list string) : Prop :=
  match row with
  | tag :: _ => PyStr.lower tag = "d"
  | [] => False
  end.

Definition is_field_row (row : list string) : Prop :=
  match row with
  | tag :: _ => PyStr.lower tag = "f"
  | [] => False
  end.

(** The lists and maps of fields and checks agree with each other. *)
Record consistent (self : Cid) : Prop := mkConsistent {
  formats_count : length (_field_formats self) = length (_field_names self);
  format_map_count : size (_field_name_to_format_map self) = length (_field_names self);
  index_map_count : size (_field_name_to_index_map self) = length (_field_names self);
  index_is_position : ∀ name i,
    _field_name_to_index_map self !! name = Some i ↔ _field_names self !! i = Some name;
  format_map_names : ∀ name,
    is_Some (_field_name_to_format_map self !! name) ↔ name ∈ _field_names self;
  field_names_distinct : NoDup (_field_names self);
  check_map_names : ∀ name,
    is_Some (_check_name_to_check_map self !! name) ↔ name ∈ _check_names self;
  check_map_count : size (_check_name_to_check_map self) = length (_check_names self);
  check_names_distinct : NoDup (_check_names self)
}.

(** The objects a program can hold: a new [Cid], and what the mutating
    methods leave behind, whether they returned or raised. *)
Inductive reachable (X : Externals) : Cid → Prop :=
  | reachable_new check_classes field_format_classes self :
      new_Cid check_classes field_format_classes = Returned self →
      reachable X self
  | reachable_read self source_path rows :
      reachable X self → reachable X (read X source_path rows self).2
  | reachable_add_field_format self items :
      reachable X self → reachable X (add_field_format X items self).2
  | reachable_add_check self items :
      reachable X self → reachable X (add_check X items self).2.

(** No key of a class map contains a dot. *)
Definition dot_free_keys (class_map : gmap string pyclass) : Prop :=
  ∀ key, is_Some (class_map !! key) → PyStr.contains PyStr.dot key = false.

(** The cell, suffixed with [Check], is the name of a registered class. *)
Definition resolves (class_map : gmap string pyclass) (cell : string) : Prop :=
  is_Some (class_map !! (cell +:+ "Check")).

(** Column [i] is the rightmost column after the description that resolves. *)
Definition last_resolving_column (class_map : gmap string pyclass) (items : list string)
    (i : nat) : Prop :=
  1 ≤ i ∧ (∃ cell, items !! i = Some cell ∧ resolves class_map cell) ∧
  ∀ j cell, i < j → items !! j = Some cell → ¬ resolves class_map cell.

Definition no_resolving_column (class_map : gmap string pyclass) (items : list string) : Prop :=
  ∀ i cell, 1 ≤ i → items !! i = Some cell → ¬ resolves class_map cell.

(** The same exception, its message echoing another qualifier. *)
Definition echo_qualifier (class_qualifier : string) (e : exception) : exception :=
  match exc_message e with
  | MsgCannotFindClass type_name _ class_name known =>
      mkException (exc_class e) (MsgCannotFindClass type_name class_qualifier class_name known)
        (exc_location e) (exc_see_also_message e) (exc_see_also_location e)
  | _ => e
  end.

Definition on_raised {A} (f : exception → exception) (r : outcome A) : outcome A :=
  match r with
  | Returned a => Returned a
  | Raised e => Raised (f e)
  end.

(** The length descriptor is the single interval [(n, n)]. *)
Definition single_value (length : Range) (n : Z) : Prop :=
  items length = Some [(Some n, Some n)].

(** ** [_tools.py]: tokens *)

Definition is_INDENT (t : token_type) : bool :=
  match t with INDENT => true | _ => false end.

Definition is_ENDMARKER (t : token_type) : bool :=
  match t with ENDMARKER => true | _ => false end.

Definition is_STRING (t : token_type) : bool :=
  match t with STRING => true | _ => false end.

Definition is_OP (t : token_type) : bool :=
  match t with OP => true | _ => false end.

(** The condition under which [tokenizeWithoutSpace] yields a token. *)
Definition is_yielded (toky : token_type * string) : bool :=
  let tokyType := toky.1 in
  let tokyText := toky.2 in
  (negb (is_INDENT tokyType) && PyStr.truthy (PyStr.strip tokyText)) || is_ENDMARKER tokyType.

(** [tokenizeWithoutSpace(text)]: what the generator yields, in order. *)
Definition tokenizeWithoutSpace (X : Externals) (text : string) : list (token_type * string) :=
  List.filter is_yielded (generate_tokens X text).

(** [s[:-1]] and [s[1:-1]] *)
Fixpoint without_last (s : string) : string :=
  match s with
  | EmptyString => EmptyString
  | String c EmptyString => EmptyString
  | String c s' => String c (without_last s')
  end.

Definition without_ends (s : string) : string :=
  match s with
  | EmptyString => EmptyString
  | String _ s' => without_last s'
  end.

(** [tokenText(toky)] *)
Definition tokenText (toky : token_type * string) : string :=
  let tokyType := toky.1 in
  let tokyText := toky.2 in
  if is_STRING tokyType then without_ends tokyText else tokyText.

(** [isEofToken(someToken)] *)
Definition isEofToken (someToken : token_type * string) : bool := ISEOF someToken.1.

(** [isCommaToken(someToken)] *)
Definition isCommaToken (someToken : token_type * string) : bool :=
  is_OP someToken.1 && String.eqb someToken.2 ",".

(** What the name [_tools.<name>] stands for: the functions on tokens and on
    texts with their bodies, any other name the module defines or imports
    without, and nothing for a name the module does not have. *)
Inductive tools_attribute :=
  | ToolsTokenizer (f : string → list (token_type * string))
  | ToolsTokenTest (f : token_type * string → bool)
  | ToolsTokenText (f : token_type * string → string)
  | ToolsOther.

Definition _tools_other_names : list string :=
  [ "__name__"; "__doc__"; "__file__"; "__package__"; "__builtins__";
    "absolute_import"; "division"; "print_function"; "unicode_literals";
    "errno"; "logging"; "os"; "platform"; "io"; "token"; "tokenize";
    "LOG_LEVEL_NAME_TO_LEVEL_MAP"; "NUMBER_DECIMAL_COMMA"; "NUMBER_DECIMAL_POINT";
    "NUMBER_INTEGER"; "mkdirs"; "attemptToRemove"; "validatedPythonName"; "platformVersion";
    "pythonVersion"; "humanReadableList"; "withSuffix" ].

Definition _tools_getattr (X : Externals) (name : string) : option tools_attribute :=
  if String.eqb name "tokenizeWithoutSpace" then Some (ToolsTokenizer (tokenizeWithoutSpace X))
  else if String.eqb name "tokenText" then Some (ToolsTokenText tokenText)
  else if String.eqb name "isEofToken" then Some (ToolsTokenTest isEofToken)
  else if String.eqb name "isCommaToken" then Some (ToolsTokenTest isCommaToken)
  else if bool_decide (name ∈ _tools_other_names) then Some ToolsOther
  else None.

Definition no_attribute {A} (name : string) : outcome A :=
  Raised (mkException AttributeError (MsgNoAttribute name) None None None).

Definition not_callable_so {A} : outcome A :=
  Raised (mkException TypeError MsgNone None None None).

(** [_tools.<name>(text)] for a function from a text to tokens *)
Definition call_tools_tokenizer (X : Externals) (name text : string)
    : outcome (list (token_type * string)) :=
  match _tools_getattr X name with
  | Some (ToolsTokenizer f) => Returned (f text)
  | Some _ => not_callable_so
  | None => no_attribute name
  end.

(** [_tools.<name>(toky)] for a test of a token *)
Definition call_tools_test (X : Externals) (name : string) (toky : token_type * string)
    : outcome bool :=
  match _tools_getattr X name with
  | Some (ToolsTokenTest f) => Returned (f toky)
  | Some _ => not_callable_so
  | None => no_attribute name
  end.

(** [_tools.<name>(toky)] for the text of a token *)
Definition call_tools_text (X : Externals) (name : string) (toky : token_type * string)
    : outcome string :=
  match _tools_getattr X name with
  | Some (ToolsTokenText f) => Returned (f toky)
  | Some _ => not_callable_so
  | None => no_attribute name
  end.

(** ** [sql.py] *)

Module Sql.

Definition MAX_SMALLINT : Z := 2 ^ 15 - 1.
Definition MAX_INTEGER : Z := 2 ^ 31 - 1.
Definition MAX_BIGINT : Z := 2 ^ 63 - 1.

Definition ANSI : string := "ansi".
Definition DB2 : string := "db2".
Definition MSSQL : string := "mssql".
Definition MYSQL : string := "mysql".
Definition ORACLE : string := "oracle".

(** A type as [sql_ansi_type] gives it: the tuple of a type name and its
    numbers, as in [('int', 31)], [('varchar', 40)], [('decimal', 10, 2)]. *)
Definition sql_type_tuple : Type := string * list Z.

(** [sql_ansi_type[1]] *)
Definition second_item (sql_ansi_type : sql_type_tuple) : outcome Z :=
  item_at sql_ansi_type.2 0.

(** [AnsiSqlDialect.sql_type(sql_ansi_type)] *)
Definition AnsiSqlDialect_sql_type (sql_ansi_type : sql_type_tuple) : outcome sql_type_tuple :=
  Returned sql_ansi_type.

(** [OracleSqlDialect.sql_type(sql_ansi_type)] *)
Definition OracleSqlDialect_sql_type (sql_ansi_type : sql_type_tuple) : outcome sql_type_tuple :=
  let ansi_type := sql_ansi_type.1 in
  if String.eqb ansi_type "decimal" then
    match sql_ansi_type.2 with
    | [scale; precision] => Returned ("number", [scale; precision])
    | _ => Raised (mkException (OtherError "ValueError") MsgNone None None None)
    end
  else if String.eqb ansi_type "varchar" then
    bind_outcome (second_item sql_ansi_type) (λ length, Returned ("varchar2", [length]))
  else if String.eqb ansi_type "int" then
    bind_outcome (second_item sql_ansi_type) (λ length,
    if (31 <? length)%Z then Returned ("number", [length; 0%Z]) else Returned sql_ansi_type)
  else Returned sql_ansi_type.

(** [MSSqlDialect.sql_type(sql_ansi_type)] *)
Definition MSSqlDialect_sql_type (sql_ansi_type : sql_type_tuple) : outcome sql_type_tuple :=
  let ansi_type := sql_ansi_type.1 in
  if String.eqb ansi_type "int" then
    bind_outcome (second_item sql_ansi_type) (λ length,
    if (length <=? 15)%Z then Returned ("smallint", [length])
    else if (length <=? 31)%Z then Returned ("int", [length])
    else if (length <=? 63)%Z then Returned ("bigint", [length])
    else Returned ("decimal", [length; 0%Z]))
  else Returned sql_ansi_type.

Definition apostrophe : ascii := "'"%char.

(** [text.replace(old, new)] for a one character [old] *)
Fixpoint replace (old : ascii) (new : string) (text : string) : string :=
  match text with
  | EmptyString => EmptyString
  | String c text' =>
      if Ascii.eqb c old then new +:+ replace old new text'
      else String c (replace old new text')
  end.

(** [sql_escaped(text)] *)
Definition sql_escaped (text : string) : string :=
  "'" +:+ replace apostrophe "''" text +:+ "'".

(** [is_keyword(word)], for a dialect with the given keywords *)
Definition is_keyword (keywords : gset string) (word : string) : bool :=
  bool_decide (PyStr.lower word ∈ keywords).

(** The loop of [generate_choices], from the token in hand and the tokens
    the generator has yet to yield. *)
Fixpoint generate_choices_loop (X : Externals) (toky : token_type * string)
    (tokens : list (token_type * string)) (choices : list string) : outcome (list string) :=
  bind_outcome (call_tools_test X "is_eof_token" toky) (λ at_end,
  if (at_end : bool) then Returned choices
  else
    bind_outcome (call_tools_test X "is_comma_token" toky) (λ _,
    bind_outcome (call_tools_text X "token_text" toky) (λ choice,
    let choices := choices ++ [choice] in
    match tokens with
    | [] => Raised (mkException StopIteration MsgNone None None None)
    | toky :: tokens =>
        bind_outcome (call_tools_test X "is_eof_token" toky) (λ at_end,
        if (at_end : bool) then generate_choices_loop X toky tokens choices
        else
          match tokens with
          | [] => Raised (mkException StopIteration MsgNone None None None)
          | toky :: tokens => generate_choices_loop X toky tokens choices
          end)
    end))).

(** [generate_choices(rule)] *)
Definition generate_choices (X : Externals) (rule : string) : outcome (list string) :=
  bind_outcome (call_tools_tokenizer X "tokenize_without_space" rule) (λ tokens,
  match tokens with
  | [] => Raised (mkException StopIteration MsgNone None None None)
  | toky :: tokens => generate_choices_loop X toky tokens []
  end).

End Sql.

(** ** Further vocabulary of the properties *)

(** The name under which the registry keeps a class. *)
Definition plain_class_name (c : pyclass) : string := PyStr.last_dotted (class_name c).


(** The map of formats holds under each name the format at the position of
    the name. *)
Definition aligned (self : Cid) : Prop :=
  ∀ i name, _field_names self !! i = Some name →
    _field_name_to_format_map self !! name = _field_formats self !! i.

(** The line, path and kind of the cursor: what moving within a row keeps. *)
Definition cursor_row (self : Cid) : option (string * nat * bool) :=
  (λ l, (loc_path l, loc_line l, loc_has_cell l)) <$> _location self.

(** The texts with the separator between each two, as [separator.join(texts)] *)
Definition joined_by (separator : string) (texts : list string) : string :=
  match texts with
  | [] => EmptyString
  | text :: rest => fold_left (λ joined t, joined +:+ separator +:+ t) rest text
  end.

(** * Properties *)

(** ** Strings *)

Lemma split_not_nil sep s : PyStr.split sep s ≠ [].
Proof.
  destruct s as [|c s]; simpl; [done|].
  destruct (Ascii.eqb c sep); [done|]. by destruct (PyStr.split sep s).
Qed.

Lemma split_no_separator sep s : PyStr.contains sep s = false → PyStr.split sep s = [s].
Proof.
  induction s as [|c s IH]; simpl; [done|].
  intros [Hc Hs]%orb_false_iff. rewrite Hc, (IH Hs). done.
Qed.

Lemma last_split_no_separator sep s :
  PyStr.contains sep (List.last (PyStr.split sep s) EmptyString) = false.
Proof.
  induction s as [|c s IH]; simpl; [done|].
  destruct (Ascii.eqb c sep) eqn:Hc.
  - pose proof (split_not_nil sep s). destruct (PyStr.split sep s); [done|]. exact IH.
  - pose proof (split_not_nil sep s).
    destruct (PyStr.split sep s) as [|part [|part' parts]]; [done| |].
    + simpl in *. by rewrite Hc, IH.
    + exact IH.
Qed.

Lemma last_dotted_dot_free s : PyStr.contains PyStr.dot (PyStr.last_dotted s) = false.
Proof. apply last_split_no_separator. Qed.

Lemma last_dotted_of_dot_free s :
  PyStr.contains PyStr.dot s = false → PyStr.last_dotted s = s.
Proof. intros H. unfold PyStr.last_dotted. by rewrite split_no_separator. Qed.

Lemma last_dotted_idempotent s : PyStr.last_dotted (PyStr.last_dotted s) = PyStr.last_dotted s.
Proof. apply last_dotted_of_dot_free, last_dotted_dot_free. Qed.

Lemma contains_append c s t :
  PyStr.contains c (s +:+ t) = PyStr.contains c s || PyStr.contains c t.
Proof. induction s as [|c' s IH]; simpl; [done|]. by rewrite IH, orb_assoc. Qed.

Lemma truthy_last_dotted s : PyStr.truthy (PyStr.last_dotted s) = true → PyStr.truthy s = true.
Proof. by destruct s. Qed.

(** ** Resolution of type names *)

Lemma assert_pure_true {B} (k : unit → outcome B) : bind_outcome (assert_pure true) k = k ().
Proof. reflexivity. Qed.

Lemma create_class_final_segment X name_to_class_map class_qualifier class_name_appendix
    type_name error_to_raise :
  PyStr.truthy (PyStr.last_dotted class_qualifier) = true →
  _create_class X name_to_class_map (PyStr.last_dotted class_qualifier) class_name_appendix
    type_name error_to_raise
  = on_raised (echo_qualifier (PyStr.last_dotted class_qualifier))
      (_create_class X name_to_class_map class_qualifier class_name_appendix type_name
         error_to_raise).
Proof.
  intros Hlast. pose proof (truthy_last_dotted _ Hlast) as Hq.
  unfold _create_class. rewrite last_dotted_idempotent, Hlast, Hq.
  destruct (negb (bool_decide (name_to_class_map = ∅))); [|done].
  rewrite !assert_pure_true.
  destruct (PyStr.truthy class_name_appendix); [|done].
  destruct (PyStr.truthy type_name); [|done].
  rewrite !assert_pure_true.
  by destruct (name_to_class_map !! _).
Qed.

(** C8 (as amended).  For field formats and for checks alike, resolving the
    final dotted component of a qualifier (when that component is not empty)
    gives what resolving the whole qualifier gives: the same class, or an
    exception of the same class with the same related class name and the same
    list of known names, whose message echoes the qualifier it was given. *)
Theorem resolution_depends_on_final_segment X self class_qualifier :
  PyStr.truthy (PyStr.last_dotted class_qualifier) = true →
  _create_field_format_class X self (PyStr.last_dotted class_qualifier)
  = on_raised (echo_qualifier (PyStr.last_dotted class_qualifier))
      (_create_field_format_class X self class_qualifier)
  ∧ _create_check_class X self (PyStr.last_dotted class_qualifier)
  = on_raised (echo_qualifier (PyStr.last_dotted class_qualifier))
      (_create_check_class X self class_qualifier).
Proof.
  intros Hlast. pose proof (truthy_last_dotted _ Hlast) as Hq.
  unfold _create_field_format_class, _create_check_class.
  rewrite Hlast, Hq, !assert_pure_true.
  split; by apply create_class_final_segment.
Qed.

Lemma resolution_depends_on_final_segment_witness :
  PyStr.truthy (PyStr.last_dotted "pkg.sub.Integer") = true
  ∧ _create_field_format_class Fixture.externals Fixture.cid (PyStr.last_dotted "pkg.sub.Integer")
    = on_raised (echo_qualifier (PyStr.last_dotted "pkg.sub.Integer"))
        (_create_field_format_class Fixture.externals Fixture.cid "pkg.sub.Integer").
Proof.
  split; [reflexivity|].
  apply (resolution_depends_on_final_segment Fixture.externals Fixture.cid "pkg.sub.Integer").
  reflexivity.
Defined.

(** C8 (as stated) fails: with no class [NopeFieldFormat] registered, the
    qualifiers [pkg.Nope] and [Nope] raise exceptions with different
    messages, each naming the qualifier it was given. *)
Lemma resolution_not_identical_on_error :
  ¬ (∀ X self class_qualifier,
       _create_field_format_class X self class_qualifier
       = _create_field_format_class X self (PyStr.last_dotted class_qualifier)).
Proof.
  intros H. specialize (H Fixture.externals Fixture.cid "pkg.Nope").
  vm_compute in H. discriminate H.
Qed.

(** ** The cells that [read] passes on *)


Lemma row_data_of_length row : length (row_data_of row) = 6.
Proof. by destruct row as [|c0 [|c1 [|c2 [|c3 [|c4 [|c5 [|c6 row]]]]]]]. Qed.







(** ** Running method bodies *)

Lemma bind_run {A B} (m : M A) (f : A → M B) self :
  (m ≫= f) self
  = match m self with
    | (Returned a, self') => f a self'
    | (Raised e, self') => (Raised e, self')
    end.
Proof. reflexivity. Qed.

Lemma bind_returned {A B} (m : M A) (f : A → M B) self a self' :
  m self = (Returned a, self') → (m ≫= f) self = f a self'.
Proof. intros H. by rewrite bind_run, H. Qed.

Lemma bind_raised {A B} (m : M A) (f : A → M B) self e self' :
  m self = (Raised e, self') → (m ≫= f) self = (Raised e, self').
Proof. intros H. by rewrite bind_run, H. Qed.

Lemma on_location_run method self l :
  _location self = Some l →
  on_location method self = (Returned (), set__location (Some (method l)) self).
Proof. intros H. unfold on_location. by rewrite H. Qed.

Lemma keeps_bind {A B T} (part : Cid → T) (m : M A) (f : A → M B) :
  keeps part m → (∀ a, keeps part (f a)) → keeps part (m ≫= f).
Proof.
  intros Hm Hf self. rewrite bind_run. specialize (Hm self).
  destruct (m self) as [[a|e] self']; simpl in *; [|done].
  by rewrite Hf.
Qed.

Lemma keeps_same_object {A T} (part : Cid → T) (m : M A) :
  (∀ self, (m self).2 = self) → keeps part m.
Proof. intros H self. by rewrite H. Qed.

Lemma keeps_modify {T} (part : Cid → T) (f : Cid → Cid) :
  (∀ self, part (f self) = part self) → keeps part (modify f).
Proof. intros H self. apply H. Qed.

Lemma keeps_on_location {T} (part : Cid → T) method :
  (∀ l self, part (set__location l self) = part self) → keeps part (on_location method).
Proof.
  intros H self. unfold on_location. destruct (_location self); simpl; [apply H|done].
Qed.

(** Steps through a method body that keeps a part which the cursor is no
    part of. *)
Ltac keeps_step :=
  lazymatch goal with
  | |- keeps _ (mbind _ _) => apply keeps_bind; [|intros]
  | |- keeps _ (on_location _) => apply keeps_on_location; reflexivity
  | |- keeps _ (modify _) => apply keeps_modify; reflexivity
  | |- keeps _ (mret _) => apply keeps_same_object; reflexivity
  | |- keeps _ (raise _) => apply keeps_same_object; reflexivity
  | |- keeps _ (raise_located _ _) => apply keeps_same_object; reflexivity
  | |- keeps _ (lift _) => apply keeps_same_object; reflexivity
  | |- keeps _ get_self => apply keeps_same_object; reflexivity
  | |- keeps _ (assert ?b) => apply keeps_same_object; intros; by destruct b
  | |- keeps _ (if ?b then _ else _) => destruct b
  | |- keeps _ (match ?x with _ => _ end) => destruct x
  end.

Ltac solve_keeps := repeat keeps_step.

Lemma read_field_items_cursor_only X items : cursor_only (read_field_items X items).
Proof. unfold cursor_only, read_field_items. solve_keeps. Qed.

Lemma validate_unique_field_name_cursor_only field_name :
  cursor_only (validate_unique_field_name field_name).
Proof. unfold cursor_only, validate_unique_field_name. solve_keeps. Qed.

Lemma validate_example_cursor_only X field_name field_example field_format :
  cursor_only (validate_example X field_name field_example field_format).
Proof. unfold cursor_only, validate_example. solve_keeps. Qed.

Lemma validate_fixed_length_cursor_only X data_format field_name field_format :
  cursor_only (validate_fixed_length X data_format field_name field_format).
Proof. unfold cursor_only, validate_fixed_length. solve_keeps. Qed.

Lemma read_check_items_cursor_only items : cursor_only (read_check_items items).
Proof. unfold cursor_only, read_check_items. solve_keeps. Qed.

(** ** No field before the data format *)

Lemma add_field_format_without_data_format X items self l :
  _data_format self = None → _location self = Some l →
  add_field_format X items self
  = (Raised (mkException CidSyntaxError MsgDataFormatBeforeField (Some l) None None), self).
Proof.
  intros Hd Hl. unfold add_field_format.
  rewrite bind_run. simpl. rewrite Hl. simpl.
  rewrite bind_run. simpl. rewrite Hd. unfold raise_located. by rewrite Hl.
Qed.

Lemma add_field_format_raises_without_data_format X items self :
  _data_format self = None → ∃ e, add_field_format X items self = (Raised e, self).
Proof.
  intros Hd. unfold add_field_format. rewrite bind_run. simpl.
  destruct (bool_decide (is_Some (_location self))); simpl.
  - rewrite bind_run. simpl. rewrite Hd. unfold raise_located. eauto.
  - rewrite bind_run. simpl. eauto.
Qed.

Lemma add_check_keeps_fields X items :
  keeps (λ self, (_data_format self, fields_of self)) (add_check X items).
Proof. unfold add_check, read_check_items. solve_keeps. Qed.

Lemma read_row_without_data_format X row self :
  _data_format self = None → ¬ is_data_format_row row →
  _data_format (read_row X row self).2 = None
  ∧ fields_of (read_row X row self).2 = fields_of self.
Proof.
  intros Hd Hrow.
  cut ((_data_format (read_row X row self).2, fields_of (read_row X row self).2)
       = (_data_format self, fields_of self)).
  { intros H. split; [rewrite <- Hd; exact (f_equal fst H)|exact (f_equal snd H)]. }
  unfold read_row. rewrite bind_run.
  pose proof (keeps_on_location (λ self, (_data_format self, fields_of self)) advance_line
                (λ _ _, eq_refl)) as Hline.
  destruct row as [|tag cells]; simpl.
  { apply Hline. }
  simpl in Hrow. apply String.eqb_neq in Hrow. rewrite Hrow.
  destruct (String.eqb (PyStr.lower tag) "f").
  { destruct (add_field_format_raises_without_data_format X (row_data_of (tag :: cells)) self Hd)
      as [e ->]. done. }
  destruct (String.eqb (PyStr.lower tag) "c").
  { pose proof (add_check_keeps_fields X (row_data_of (tag :: cells)) self) as Hc.
    destruct (add_check X (row_data_of (tag :: cells)) self) as [[[]|e] self']; simpl in *.
    - by rewrite Hline.
    - done. }
  destruct (negb (String.eqb (PyStr.lower tag) EmptyString)); simpl; [done|apply Hline].
Qed.

Lemma read_rows_without_data_format X rows self :
  _data_format self = None → Forall (λ row, ¬ is_data_format_row row) rows →
  _data_format (read_rows X rows self).2 = None
  ∧ fields_of (read_rows X rows self).2 = fields_of self.
Proof.
  intros Hd Hrows. revert self Hd.
  induction Hrows as [|row rows Hrow _ IH]; intros self Hd; simpl; [done|].
  rewrite bind_run.
  destruct (read_row_without_data_format X row self Hd Hrow) as [Hd' Hf'].
  destruct (read_row X row self) as [[[]|e] self']; simpl in *; [|done].
  destruct (IH self' Hd') as [Hd'' Hf'']. by rewrite Hd'', Hf''.
Qed.

Lemma read_rows_app X rows rows' self :
  read_rows X (rows ++ rows') self = (read_rows X rows;; read_rows X rows') self.
Proof.
  revert self. induction rows as [|row rows IH]; intros self; simpl; [done|].
  rewrite !bind_run. destruct (read_row X row self) as [[[]|e] self']; [|done].
  by rewrite IH, bind_run.
Qed.

Lemma read_row_field_without_data_format X row self :
  _data_format self = None → is_field_row row → ∃ e, read_row X row self = (Raised e, self).
Proof.
  intros Hd Hrow. destruct row as [|tag cells]; [done|]. simpl in Hrow.
  unfold read_row. rewrite bind_run, Hrow. simpl.
  destruct (add_field_format_raises_without_data_format X (row_data_of (tag :: cells)) self Hd)
    as [e ->]. eauto.
Qed.

(** C5.  As long as no data format exists, [add_field_format] raises a
    [CidSyntaxError] at the cursor and leaves the object as it was; and a
    document in which a field row comes before every data format row makes
    [read] raise, without a field or a data format in the object. *)
Theorem field_row_needs_data_format X :
  (∀ self items l, _data_format self = None → _location self = Some l →
     add_field_format X items self
     = (Raised (mkException CidSyntaxError MsgDataFormatBeforeField (Some l) None None), self))
  ∧ (∀ source_path rows_before row rows_after self,
       _data_format self = None →
       Forall (λ row, ¬ is_data_format_row row) rows_before →
       is_field_row row →
       ∃ e self',
         read X source_path (rows_before ++ row :: rows_after) self = (Raised e, self')
         ∧ fields_of self' = fields_of self ∧ _data_format self' = None).
Proof.
  split; [intros; by apply add_field_format_without_data_format|].
  intros source_path rows_before row rows_after self Hd Hbefore Hrow.
  unfold read. rewrite bind_run. simpl. rewrite read_rows_app, bind_run.
  set (self0 := set__location _ self).
  assert (_data_format self0 = None) as Hd0 by done.
  destruct (read_rows_without_data_format X rows_before self0 Hd0 Hbefore) as [Hd1 Hf1].
  destruct (read_rows X rows_before self0) as [[[]|e] self1]; simpl in *.
  - destruct (read_row_field_without_data_format X row self1 Hd1 Hrow) as [e He].
    rewrite bind_run, He. eauto.
  - eauto.
Qed.

Lemma field_row_needs_data_format_witness :
  ∃ e self',
    read Fixture.externals "icd" ([["c"; "desc1"; "IsUnique"; "id"]] ++ ["f"; "id"] :: [])
      Fixture.cid = (Raised e, self')
    ∧ fields_of self' = fields_of Fixture.cid ∧ _data_format self' = None.
Proof.
  apply (proj2 (field_row_needs_data_format Fixture.externals)).
  - reflexivity.
  - repeat constructor. simpl. discriminate.
  - reflexivity.
Defined.

(** ** The type and the rule of a check row *)

Lemma check_type_scan_none class_map items n found :
  (∀ i cell, 1 ≤ i < 1 + n → items !! i = Some cell → ¬ resolves class_map cell) →
  fold_left (check_type_scan_step class_map items) (seq 1 n) found = found.
Proof.
  induction n as [|n IH]; intros Hnone; [done|].
  rewrite seq_S, fold_left_app, IH by (intros i cell ?; apply Hnone; lia).
  simpl. unfold check_type_scan_step.
  destruct (items !! S n) as [cell|] eqn:Hcell; [|done].
  rewrite bool_decide_eq_false_2; [done|]. apply (Hnone (S n) cell); [lia|done].
Qed.

Lemma check_type_scan_last class_map items n found i cell :
  1 ≤ i < 1 + n → items !! i = Some cell → resolves class_map cell →
  (∀ j cell', i < j < 1 + n → items !! j = Some cell' → ¬ resolves class_map cell') →
  fold_left (check_type_scan_step class_map items) (seq 1 n) found = (Some cell, S i).
Proof.
  induction n as [|n IH]; intros Hi Hcell Hres Hlast; [lia|].
  rewrite seq_S, fold_left_app. simpl.
  destruct (decide (i = S n)) as [->|Hne].
  - unfold check_type_scan_step at 1. rewrite Hcell.
    by rewrite bool_decide_eq_true_2.
  - rewrite IH by (try done; try lia; intros j cell' ?; apply Hlast; lia).
    unfold check_type_scan_step. destruct (items !! S n) as [cell'|] eqn:Hcell'; [|done].
    rewrite bool_decide_eq_false_2; [done|]. apply (Hlast (S n) cell'); [lia|done].
Qed.

Lemma check_type_scan_no_resolving_column class_map items :
  no_resolving_column class_map items → check_type_scan class_map items = (None, 2).
Proof.
  intros Hnone. unfold check_type_scan. apply check_type_scan_none.
  intros i cell [Hi _]. by apply Hnone.
Qed.

Lemma check_type_scan_last_resolving_column class_map items i cell :
  last_resolving_column class_map items i → items !! i = Some cell →
  check_type_scan class_map items = (Some cell, S i).
Proof.
  intros (Hi & (cell' & Hcell' & Hres) & Hlast) Hcell.
  assert (cell' = cell) as -> by congruence.
  pose proof (lookup_lt_Some _ _ _ Hcell) as Hlt.
  unfold check_type_scan. apply check_type_scan_last; [lia|done|done|].
  intros j c [Hj _]. by apply Hlast.
Qed.

Lemma truthy_not_empty s : s ≠ EmptyString → PyStr.truthy s = true.
Proof. by destruct s. Qed.

Lemma read_check_items_run items self check_description check_type rule_index :
  2 ≤ length items → items !! 0 = Some check_description →
  check_type_scan (_check_name_to_class_map self) items = (Some check_type, rule_index) →
  check_type ≠ EmptyString →
  read_check_items items self
  = ((if (3 <=? length items)%nat then lift (item_at items rule_index) else mret EmptyString)
       ≫= λ check_rule, mret (check_description, check_type, check_rule)) self.
Proof.
  intros Hlen Hdesc Hscan Htype. unfold read_check_items.
  destruct (Nat.ltb_spec (length items) 2) as [|_]; [lia|].
  rewrite bind_run. unfold lift at 1, item_at at 1. rewrite Hdesc.
  rewrite bind_run. simpl. rewrite Hscan. simpl.
  by rewrite (truthy_not_empty _ Htype).
Qed.

(** C9.  A check row of at least three cells whose last cell is not empty
    and resolves makes [add_check] evaluate [items[rule_index]] with
    [rule_index] the length of the row: it raises an [IndexError], which
    carries no location, and so does [read] on a row whose cell 6 is such a
    cell. *)
Theorem add_check_type_in_last_cell_raises_IndexError X items self cell :
  3 ≤ length items →
  items !! (length items - 1) = Some cell →
  cell ≠ EmptyString →
  resolves (_check_name_to_class_map self) cell →
  check_type_scan (_check_name_to_class_map self) items = (Some cell, length items)
  ∧ add_check X items self = (Raised (mkException IndexError MsgNone None None None), self)
  ∧ (length items = 6 → ∀ tag, PyStr.lower tag = "c" →
     read_row X (tag :: items) self
     = (Raised (mkException IndexError MsgNone None None None), self)).
Proof.
  intros Hlen Hcell Hnonempty Hres.
  assert (check_type_scan (_check_name_to_class_map self) items = (Some cell, length items))
    as Hscan.
  { assert (check_type_scan (_check_name_to_class_map self) items
            = (Some cell, S (length items - 1))) as Hscan.
    { apply check_type_scan_last_resolving_column; [|done].
      split; [lia|]. split; [by exists cell|].
      intros j cell' Hj Hcell'. apply lookup_lt_Some in Hcell'. lia. }
    rewrite Hscan. f_equal. lia. }
  assert (add_check X items self
          = (Raised (mkException IndexError MsgNone None None None), self)) as Hadd.
  { destruct items as [|check_description items']; [simpl in Hlen; lia|].
    unfold add_check. erewrite bind_raised; [done|].
    erewrite read_check_items_run; [|simpl in *; lia|done|exact Hscan|done].
    destruct (Nat.leb_spec 3 (length (check_description :: items'))) as [_|]; [|lia].
    rewrite bind_run. unfold lift, item_at.
    by rewrite lookup_ge_None_2. }
  split; [done|]. split; [done|].
  intros Hsix tag Htag.
  assert (row_data_of (tag :: items) = items) as Hdata.
  { destruct items as [|c1 [|c2 [|c3 [|c4 [|c5 [|c6 [|c7 items]]]]]]]; simpl in Hsix; try lia.
    done. }
  unfold read_row. rewrite Htag, Hdata. simpl String.eqb. cbv iota.
  by erewrite bind_raised.
Qed.

Lemma add_check_type_in_last_cell_raises_IndexError_witness :
  add_check Fixture.externals
    ["desc1"; EmptyString; EmptyString; EmptyString; EmptyString; "IsUnique"] Fixture.cid
  = (Raised (mkException IndexError MsgNone None None None), Fixture.cid).
Proof.
  apply (add_check_type_in_last_cell_raises_IndexError Fixture.externals
           ["desc1"; EmptyString; EmptyString; EmptyString; EmptyString; "IsUnique"]
           Fixture.cid "IsUnique").
  - simpl. lia.
  - reflexivity.
  - discriminate.
  - eexists. vm_compute. reflexivity.
Defined.

(** C3 (as amended).  On a check row of at least two cells: when no cell
    after the description resolves, a [CheckSyntaxError] at the cursor is
    raised; when the rightmost resolving cell is not empty it is the check
    type, and the rule is the empty string on a row of two cells and the cell
    after the type, where the row has one, on a longer row.  The row
    [desc1, (empty), IsUnique, id] has its type in column 2 and the rule
    [id]. *)
Theorem check_type_is_last_resolving_column (items : list string) self check_description :
  2 ≤ length items →
  items !! 0 = Some check_description →
  (no_resolving_column (_check_name_to_class_map self) items →
   read_check_items items self
   = (Raised (mkException CheckSyntaxError
                (MsgCheckType (dom (_check_name_to_class_map self))
                   (PyList.slice_between 1 2 items))
                (_location self) None None), self))
  ∧ (∀ i check_type,
       last_resolving_column (_check_name_to_class_map self) items i →
       items !! i = Some check_type →
       check_type ≠ EmptyString →
       (length items = 2 →
        read_check_items items self
        = (Returned (check_description, check_type, EmptyString), self))
       ∧ (∀ check_rule, 3 ≤ length items → items !! S i = Some check_rule →
          read_check_items items self
          = (Returned (check_description, check_type, check_rule), self)))
  ∧ (check_type_scan (_check_name_to_class_map Fixture.cid)
       ["desc1"; EmptyString; "IsUnique"; "id"] = (Some "IsUnique", 3)
     ∧ read_check_items ["desc1"; EmptyString; "IsUnique"; "id"] Fixture.cid
       = (Returned ("desc1", "IsUnique", "id"), Fixture.cid)).
Proof.
  intros Hlen Hdesc. split; [|split].
  - intros Hnone. unfold read_check_items.
    destruct (Nat.ltb_spec (length items) 2) as [|_]; [lia|].
    rewrite bind_run. unfold lift at 1, item_at at 1. rewrite Hdesc.
    rewrite bind_run. simpl.
    by rewrite (check_type_scan_no_resolving_column _ _ Hnone).
  - intros i check_type Hlast Hi Htype.
    pose proof (check_type_scan_last_resolving_column _ _ _ _ Hlast Hi) as Hscan.
    rewrite (read_check_items_run _ _ _ _ _ Hlen Hdesc Hscan Htype).
    split.
    + intros Htwo. rewrite Htwo. reflexivity.
    + intros check_rule Hthree Hrule.
      destruct (Nat.leb_spec 3 (length items)) as [_|]; [|lia].
      rewrite bind_run. unfold lift, item_at. by rewrite Hrule.
  - split; by vm_compute.
Qed.

Lemma check_type_is_last_resolving_column_witness :
  read_check_items ["desc1"; "IsUnique"; "id"; "more"] Fixture.cid
  = (Returned ("desc1", "IsUnique", "id"), Fixture.cid).
Proof.
  refine (proj2 (proj1 (proj2 (check_type_is_last_resolving_column
            ["desc1"; "IsUnique"; "id"; "more"] Fixture.cid "desc1" _ _))
            1 "IsUnique" _ _ _) "id" _ _).
  - simpl. lia.
  - reflexivity.
  - split; [lia|]. split.
    + exists "IsUnique". split; [reflexivity|]. eexists. vm_compute. reflexivity.
    + intros j cell Hj Hcell [class Hclass].
      destruct j as [|[|[|[|j]]]]; try lia; simpl in Hcell; try discriminate;
        injection Hcell as <-; vm_compute in Hclass; discriminate.
  - reflexivity.
  - discriminate.
  - simpl. lia.
  - reflexivity.
Defined.

(** C3 (as stated) fails: on the row [desc1, IsUnique] the type is in the
    last column, the rule is not a column after it. *)
Lemma rule_is_not_always_the_next_column :
  ¬ (∀ (items : list string) self i check_type,
       2 ≤ length items →
       last_resolving_column (_check_name_to_class_map self) items i →
       items !! i = Some check_type →
       ∃ check_description check_rule,
         items !! S i = Some check_rule
         ∧ read_check_items items self
           = (Returned (check_description, check_type, check_rule), self)).
Proof.
  intros H.
  destruct (H ["desc1"; "IsUnique"] Fixture.cid 1 "IsUnique") as (? & ? & Hrule & _).
  - simpl. lia.
  - split; [lia|]. split.
    + exists "IsUnique". split; [reflexivity|]. eexists. vm_compute. reflexivity.
    + intros j cell Hj Hcell. destruct j as [|[|j]]; try lia; discriminate.
  - reflexivity.
  - discriminate.
Qed.

(** ** The value of a field in a row *)

(** C1 (what the code does).  On a row with as many items as there are fields
    [field_value_for] looks up [get_field_name_index] on the object, which no
    [Cid] has, and raises an [AttributeError]; on a row of another length it
    sets the cursor to the caller's location and raises a
    [DataFormatValueError] there. *)
Theorem field_value_for_calls_missing_method X field_name (row : list string) self :
  (length row = length (_field_names self) →
   field_value_for X field_name row self
   = (Raised (mkException AttributeError (MsgNoAttribute "get_field_name_index")
                None None None), self))
  ∧ (length row ≠ length (_field_names self) →
     field_value_for X field_name row self
     = (Raised (mkException DataFormatValueError
                  (MsgRowItemCount (length (_field_names self)) (length row) row)
                  (Some (create_caller_input_location X)) None None),
        set__location (Some (create_caller_input_location X)) self)).
Proof.
  split; intros Hlen; unfold field_value_for; rewrite bind_run; simpl.
  - rewrite Hlen, Nat.eqb_refl. simpl. by rewrite bind_run.
  - apply Nat.eqb_neq in Hlen. rewrite Hlen. simpl. by rewrite bind_run.
Qed.

(** C1 at an input: after the document of scenario A, with the one field
    [id], the value of [id] in the row [1] is not returned. *)
Lemma field_value_for_raises_AttributeError :
  field_value_for Fixture.externals "id" ["1"]
    (Fixture.compile
       [["d"; "format"; "fixed"]; ["f"; "id"; "1"; EmptyString; "4:4"; "Integer"; EmptyString]]).2
  = (Raised (mkException AttributeError (MsgNoAttribute "get_field_name_index") None None None),
     (Fixture.compile
        [["d"; "format"; "fixed"];
         ["f"; "id"; "1"; EmptyString; "4:4"; "Integer"; EmptyString]]).2).
Proof.
  apply (proj1 (field_value_for_calls_missing_method Fixture.externals "id" ["1"] _)).
  vm_compute. reflexivity.
Defined.

(** ** The cursor stays set *)

Lemma preserves_bind {A B} (P : Cid → Prop) (m : M A) (f : A → M B) :
  preserves P m → (∀ a, preserves P (f a)) → preserves P (m ≫= f).
Proof.
  intros Hm Hf self HP. rewrite bind_run. specialize (Hm self HP).
  destruct (m self) as [[a|e] self']; simpl in *; [|done].
  by apply Hf.
Qed.

Lemma preserves_same_object {A} (P : Cid → Prop) (m : M A) :
  (∀ self, (m self).2 = self) → preserves P m.
Proof. intros H self HP. by rewrite H. Qed.

Lemma on_location_has_location method : preserves has_location (on_location method).
Proof.
  intros self HP. unfold on_location, has_location in *.
  destruct (_location self) eqn:H; simpl; [by eexists|]. by rewrite H.
Qed.

(** Steps through a method body for a property that moving the cursor
    preserves. *)
Ltac preserves_base_step :=
  lazymatch goal with
  | |- preserves _ (mbind _ _) => apply preserves_bind; [|intros]
  | |- preserves _ (mret _) => apply preserves_same_object; reflexivity
  | |- preserves _ (raise _) => apply preserves_same_object; reflexivity
  | |- preserves _ (raise_located _ _) => apply preserves_same_object; reflexivity
  | |- preserves _ (lift _) => apply preserves_same_object; reflexivity
  | |- preserves _ get_self => apply preserves_same_object; reflexivity
  | |- preserves _ (assert ?b) => apply preserves_same_object; intros; by destruct b
  | |- preserves _ (if ?b then _ else _) => destruct b
  | |- preserves _ (match ?x with _ => _ end) => destruct x
  end.

Ltac has_location_step :=
  lazymatch goal with
  | |- preserves _ (on_location _) => apply on_location_has_location
  | |- preserves _ (modify _) => intros ? ?; assumption
  | |- _ => preserves_base_step
  end.

Lemma read_field_items_has_location X items :
  preserves has_location (read_field_items X items).
Proof. unfold read_field_items. repeat has_location_step. Qed.

Lemma validate_example_has_location X field_name field_example field_format :
  preserves has_location (validate_example X field_name field_example field_format).
Proof. unfold validate_example. repeat has_location_step. Qed.

Lemma validate_fixed_length_has_location X data_format field_name field_format :
  preserves has_location (validate_fixed_length X data_format field_name field_format).
Proof. unfold validate_fixed_length. repeat has_location_step. Qed.

Lemma add_field_format_has_location X items :
  preserves has_location (add_field_format X items).
Proof.
  unfold add_field_format, register_field, validate_unique_field_name.
  repeat has_location_step;
    first [apply read_field_items_has_location | apply validate_example_has_location
          | apply validate_fixed_length_has_location].
Qed.

Lemma add_check_has_location X items : preserves has_location (add_check X items).
Proof. unfold add_check, read_check_items. repeat has_location_step. Qed.

(** ** The steps of [add_field_format] and [add_check] *)

Lemma validate_unique_field_name_returned field_name self :
  _field_name_to_format_map self !! field_name = None →
  validate_unique_field_name field_name self = (Returned (), self).
Proof.
  intros H. unfold validate_unique_field_name. rewrite bind_run. simpl.
  rewrite H. rewrite bool_decide_eq_false_2; [done|]. by intros [? ?].
Qed.


Lemma validate_unique_field_name_inv field_name self self' :
  validate_unique_field_name field_name self = (Returned (), self') →
  self' = self ∧ _field_name_to_format_map self !! field_name = None.
Proof.
  unfold validate_unique_field_name. rewrite bind_run. simpl.
  destruct (_field_name_to_format_map self !! field_name) eqn:H.
  - rewrite bool_decide_eq_true_2 by eauto. rewrite bind_run.
    unfold on_location. destruct (_location self); simpl; discriminate.
  - rewrite bool_decide_eq_false_2 by (by intros [? ?]). by intros [= <-].
Qed.

Lemma validate_fixed_length_inv X data_format field_name field_format self self' :
  format data_format = FORMAT_FIXED →
  validate_fixed_length X data_format field_name field_format self = (Returned (), self') →
  ∃ n, single_value (length_ field_format) n ∧ (1 ≤ n)%Z.
Proof.
  intros Hfixed. unfold validate_fixed_length, single_value.
  rewrite Hfixed, String.eqb_refl.
  rewrite bind_run. unfold on_location.
  destruct (_location self); [|discriminate].
  destruct (items (length_ field_format)) as [[|[lower upper] [|other others]]|];
    simpl; try discriminate.
  unfold bound_eqb. destruct (decide (lower = upper)) as [<-|Hne].
  - rewrite bool_decide_eq_true_2 by done.
    destruct lower as [n|]; simpl.
    + rewrite !bind_run. simpl. destruct (Z.ltb_spec n 1); simpl; [discriminate|].
      intros _. by exists n.
    + rewrite !bind_run. simpl. destruct (none_lt X 1); simpl; discriminate.
  - rewrite bool_decide_eq_false_2 by done. rewrite bind_run. simpl. discriminate.
Qed.

Lemma validate_fixed_length_raised X data_format field_name field_format self l :
  format data_format = FORMAT_FIXED →
  _location self = Some l →
  ¬ (∃ n, single_value (length_ field_format) n ∧ (1 ≤ n)%Z) →
  items (length_ field_format) ≠ Some [(None, None)] ∨ none_lt X 1 = None →
  ∃ message,
    validate_fixed_length X data_format field_name field_format self
    = (Raised (mkException FieldSyntaxError message (Some (set_cell 4 l)) None None),
       set__location (Some (set_cell 4 l)) self).
Proof.
  intros Hfixed Hl Hshape Hnone. unfold validate_fixed_length, single_value in *.
  rewrite Hfixed, String.eqb_refl.
  rewrite bind_run, (on_location_run _ _ _ Hl).
  destruct (items (length_ field_format)) as [[|[lower upper] [|other others]]|];
    simpl; eauto.
  unfold bound_eqb. destruct (decide (lower = upper)) as [<-|Hne].
  - rewrite bool_decide_eq_true_2 by done.
    destruct lower as [n|]; simpl.
    + rewrite !bind_run. simpl. destruct (Z.ltb_spec n 1); simpl; [eauto|].
      destruct Hshape. by exists n.
    + destruct Hnone as [Hnone|Hnone]; [done|].
      rewrite !bind_run. simpl. rewrite Hnone. simpl. eauto.
  - rewrite bool_decide_eq_false_2 by done. rewrite bind_run. simpl. eauto.
Qed.

Lemma add_field_format_run X items self data_format :
  has_location self → _data_format self = Some data_format →
  consistent self → 1 ≤ length items →
  add_field_format X items self
  = (read_field_items X items ≫= λ parsed,
     validate_unique_field_name (field_name parsed);;
     validate_example X (field_name parsed) (field_example parsed) (field_format parsed)
       ≫= λ field_format,
     validate_fixed_length X data_format (field_name parsed) field_format;;
     register_field (field_name parsed) field_format;;
     assert (PyStr.truthy (field_name parsed));;
     assert (PyStr.truthy (field_type parsed))) self.
Proof.
  intros Hl Hd [Hformats Hformat_map Hindex_map _ _ _ _ _ _] Hlen.
  destruct items as [|item items]; [simpl in Hlen; lia|].
  unfold add_field_format.
  rewrite bind_run. simpl. rewrite bool_decide_eq_true_2 by done. simpl.
  rewrite bind_run. simpl. rewrite Hd.
  rewrite Hformats, Hformat_map, Hindex_map, Nat.eqb_refl. reflexivity.
Qed.

Lemma cursor_only_run {A} (m : M A) self r self' :
  cursor_only m → m self = (r, self') → model self' = model self.
Proof. intros Hm Hrun. specialize (Hm self). by rewrite Hrun in Hm. Qed.

Lemma preserves_run {A} (P : Cid → Prop) (m : M A) self r self' :
  preserves P m → P self → m self = (r, self') → P self'.
Proof. intros Hm HP Hrun. specialize (Hm self HP). by rewrite Hrun in Hm. Qed.

Lemma model_fields_of self self' : model self' = model self → fields_of self' = fields_of self.
Proof. intros H. exact (f_equal fields_of H). Qed.

Lemma model_format_map self self' :
  model self' = model self → _field_name_to_format_map self' = _field_name_to_format_map self.
Proof. intros H. exact (f_equal _field_name_to_format_map H). Qed.


Lemma model_consistent self self' : model self' = model self → consistent self → consistent self'.
Proof.
  intros H [].
  pose proof (f_equal _field_names H) as Hn. pose proof (f_equal _field_formats H) as Hf.
  pose proof (f_equal _field_name_to_format_map H) as Hfm.
  pose proof (f_equal _field_name_to_index_map H) as Him.
  pose proof (f_equal _check_names H) as Hc.
  pose proof (f_equal _check_name_to_check_map H) as Hcm.
  simpl in *. split; rewrite ?Hn, ?Hf, ?Hfm, ?Him, ?Hc, ?Hcm; assumption.
Qed.

Lemma read_field_items_not_empty X items self parsed self' :
  read_field_items X items self = (Returned parsed, self') → 1 ≤ length items.
Proof. destruct items; [discriminate|simpl; lia]. Qed.


Lemma model_set_fields names formats to_format to_index self self' :
  model self' = model self →
  model (set_fields names formats to_format to_index self')
  = model (set_fields names formats to_format to_index self).
Proof.
  unfold model, set_fields, set__location. simpl. intros H.
  injection H as -> _ _ _ _ -> -> -> -> -> -> -> ->. reflexivity.
Qed.

Lemma bind_ret {A B} (a : A) (f : A → M B) self : (mret a ≫= f) self = f a self.
Proof. reflexivity. Qed.

Ltac unchanged :=
  simpl; intros [= <- <-]; left; split; [first [reflexivity | assumption | congruence]|discriminate].

Lemma add_field_format_outcome X items self r self' :
  add_field_format X items self = (r, self') →
  (model self' = model self ∧ r ≠ Returned ())
  ∨ (∃ parsed field_format data_format,
       _data_format self = Some data_format
       ∧ _field_name_to_format_map self !! field_name parsed = None
       ∧ model self'
         = model (set_fields (_field_names self ++ [field_name parsed])
                    (_field_formats self ++ [field_format])
                    (<[field_name parsed := field_format]> (_field_name_to_format_map self))
                    (<[field_name parsed := length (_field_names self)]>
                       (_field_name_to_index_map self)) self)
       ∧ (format data_format = FORMAT_FIXED →
          ∃ n, single_value (length_ field_format) n ∧ (1 ≤ n)%Z)
       ∧ (r = Returned () ∨ ∃ e, r = Raised e ∧ exc_class e = AssertionError)).
Proof.
  unfold add_field_format. rewrite bind_run. simpl.
  destruct (bool_decide (is_Some (_location self))); simpl; [|unchanged].
  rewrite bind_run. simpl.
  destruct (_data_format self) as [data_format|] eqn:Hd; [|unchanged].
  destruct (length (_field_formats self) =? length (_field_names self))%nat; simpl;
    [|unchanged].
  destruct (size (_field_name_to_format_map self) =? length (_field_names self))%nat; simpl;
    [|unchanged].
  destruct (size (_field_name_to_index_map self) =? length (_field_names self))%nat; simpl;
    [|unchanged].
  rewrite !bind_ret.
  destruct (length items); [unchanged|].
  rewrite bind_run.
  destruct (read_field_items X items self) as [[parsed|e] self1] eqn:Hread.
  2:{ pose proof (cursor_only_run _ _ _ _ (read_field_items_cursor_only X items) Hread).
      unchanged. }
  pose proof (cursor_only_run _ _ _ _ (read_field_items_cursor_only X items) Hread) as Hm1.
  rewrite bind_run.
  destruct (validate_unique_field_name (field_name parsed) self1) as [[[]|e] self2] eqn:Hunique.
  2:{ pose proof (cursor_only_run _ _ _ _
                    (validate_unique_field_name_cursor_only (field_name parsed)) Hunique).
      unchanged. }
  apply validate_unique_field_name_inv in Hunique as [-> Hfresh].
  rewrite (model_format_map _ _ Hm1) in Hfresh.
  rewrite bind_run.
  destruct (validate_example X (field_name parsed) (field_example parsed) (field_format parsed)
              self1) as [[field_format|e] self3] eqn:Hexample.
  2:{ pose proof (cursor_only_run _ _ _ _ (validate_example_cursor_only X _ _ _) Hexample).
      unchanged. }
  pose proof (cursor_only_run _ _ _ _ (validate_example_cursor_only X _ _ _) Hexample) as Hm3.
  rewrite bind_run.
  destruct (validate_fixed_length X data_format (field_name parsed) field_format self3)
    as [[[]|e] self4] eqn:Hfixed.
  2:{ pose proof (cursor_only_run _ _ _ _ (validate_fixed_length_cursor_only X _ _ _) Hfixed).
      unchanged. }
  pose proof (cursor_only_run _ _ _ _ (validate_fixed_length_cursor_only X _ _ _) Hfixed)
    as Hm4.
  assert (model self4 = model self) as Hm by congruence.
  rewrite bind_run. unfold register_field. rewrite bind_run. unfold on_location.
  destruct (_location self4) as [l|]; [|unchanged].
  simpl. intros Hrun. right. exists parsed, field_format, data_format.
  split; [done|]. split; [done|].
  assert (self' = set_fields (_field_names self4 ++ [field_name parsed])
                    (_field_formats self4 ++ [field_format])
                    (<[field_name parsed := field_format]> (_field_name_to_format_map self4))
                    (<[field_name parsed := length (_field_names self4)]>
                       (_field_name_to_index_map self4))
                    (set__location (Some (set_cell 1 l)) self4)
          ∧ (r = Returned () ∨ ∃ e, r = Raised e ∧ exc_class e = AssertionError))
    as [-> Hr].
  { destruct (PyStr.truthy (field_name parsed)); simpl in Hrun.
    - destruct (PyStr.truthy (field_type parsed)); simpl in Hrun;
        injection Hrun as <- <-; split; eauto.
    - injection Hrun as <- <-; split; eauto. }
  split; [|split; [|done]].
  - pose proof (f_equal _field_names Hm) as Hn. pose proof (f_equal _field_formats Hm) as Hf.
    pose proof (f_equal _field_name_to_format_map Hm) as Hfm.
    pose proof (f_equal _field_name_to_index_map Hm) as Him.
    simpl in Hn, Hf, Hfm, Him. rewrite Hn, Hf, Hfm, Him.
    apply model_set_fields. exact Hm.
  - intros Hfmt. eapply validate_fixed_length_inv; eauto.
Qed.

Lemma consistent_register self field_name field_format :
  consistent self → _field_name_to_format_map self !! field_name = None →
  consistent (set_fields (_field_names self ++ [field_name])
                (_field_formats self ++ [field_format])
                (<[field_name := field_format]> (_field_name_to_format_map self))
                (<[field_name := length (_field_names self)]> (_field_name_to_index_map self))
                self).
Proof.
  intros [Hformats Hformat_map Hindex_map Hposition Hnames Hdistinct Hchecks Hcheck_count
            Hcheck_distinct] Hfresh.
  assert (field_name ∉ _field_names self) as Hnew.
  { intros Hin. apply Hnames in Hin as [? Hin]. congruence. }
  assert (_field_name_to_index_map self !! field_name = None) as Hindex_fresh.
  { destruct (_field_name_to_index_map self !! field_name) as [i|] eqn:Hi; [|done].
    apply Hposition in Hi. destruct Hnew. by eapply list_elem_of_lookup_2. }
  split; simpl; try done.
  - rewrite !length_app. simpl. lia.
  - rewrite map_size_insert_None by done. rewrite length_app. simpl. lia.
  - rewrite map_size_insert_None by done. rewrite length_app. simpl. lia.
  - intros name i. destruct (decide (field_name = name)) as [<-|Hne].
    + rewrite lookup_insert_eq. split.
      * intros [= <-]. by rewrite list_lookup_middle.
      * intros Hi. destruct (decide (i < length (_field_names self))) as [Hlt|Hge].
        -- rewrite lookup_app_l in Hi by done. destruct Hnew.
           by eapply list_elem_of_lookup_2.
        -- apply lookup_lt_Some in Hi. rewrite length_app in Hi. simpl in Hi.
           f_equal. lia.
    + rewrite lookup_insert_ne by done. rewrite Hposition. split.
      * intros Hi. rewrite lookup_app_l; [done|]. by eapply lookup_lt_Some.
      * intros Hi. destruct (decide (i < length (_field_names self))) as [Hlt|Hge].
        -- by rewrite lookup_app_l in Hi.
        -- rewrite lookup_app_r in Hi by lia.
           destruct (i - length (_field_names self)) as [|k]; simpl in Hi; [|done].
           congruence.
  - intros name. rewrite lookup_insert_is_Some, elem_of_app, list_elem_of_singleton, Hnames.
    destruct (decide (field_name = name)) as [->|Hne].
    + split; intros _; [by right|by left].
    + split; [intros [?|[_ ?]]; [done|by left]|intros [?|?]; [by right|by subst]].
  - apply NoDup_app. split; [done|]. split; [|apply NoDup_singleton].
    intros name Hin ->%list_elem_of_singleton. done.
Qed.

Lemma consistent_add_check self check_description check :
  consistent self → _check_name_to_check_map self !! check_description = None →
  consistent (set_checks (_check_names self ++ [check_description])
                (<[check_description := check]> (_check_name_to_check_map self)) self).
Proof.
  intros [Hformats Hformat_map Hindex_map Hposition Hnames Hdistinct Hchecks Hcheck_count
            Hcheck_distinct] Hfresh.
  assert (check_description ∉ _check_names self) as Hnew.
  { intros Hin. apply Hchecks in Hin as [? Hin]. congruence. }
  split; simpl; try done.
  - intros name. rewrite lookup_insert_is_Some, elem_of_app, list_elem_of_singleton, Hchecks.
    destruct (decide (check_description = name)) as [->|Hne].
    + split; intros _; [by right|by left].
    + split; [intros [?|[_ ?]]; [done|by left]|intros [?|?]; [by right|by subst]].
  - rewrite map_size_insert_None by done. rewrite length_app. simpl. lia.
  - apply NoDup_app. split; [done|]. split; [|apply NoDup_singleton].
    intros name Hin ->%list_elem_of_singleton. done.
Qed.

Lemma read_check_items_same_object items self r self' :
  read_check_items items self = (r, self') → self' = self.
Proof.
  intros Hrun. assert (keeps id (read_check_items items)) as Hkeeps.
  { unfold read_check_items. solve_keeps. }
  specialize (Hkeeps self). by rewrite Hrun in Hkeeps.
Qed.

Lemma add_check_outcome X items self r self' :
  add_check X items self = (r, self') →
  (model self' = model self ∧ r ≠ Returned ())
  ∨ (∃ check_description check_type check_rule check_class,
       read_check_items items self
       = (Returned (check_description, check_type, check_rule), self)
       ∧ _create_check_class X self check_type = Returned check_class
       ∧ check_init X check_class check_description check_rule (_field_names self)
           (_location self) = None
       ∧ _check_name_to_check_map self !! check_description = None
       ∧ model self'
         = model (set_checks (_check_names self ++ [check_description])
                    (<[check_description :=
                         mkCheck check_class check_description check_rule (_field_names self)
                           (_location self)]> (_check_name_to_check_map self)) self)
       ∧ (r = Returned () ∨ ∃ e, r = Raised e ∧ exc_class e = AssertionError)).
Proof.
  unfold add_check. rewrite bind_run.
  destruct (read_check_items items self) as [[[[check_description check_type] check_rule]|e]
                                              self1] eqn:Hread.
  2:{ apply read_check_items_same_object in Hread as ->. unchanged. }
  pose proof (read_check_items_same_object _ _ _ _ Hread) as ->.
  rewrite bind_run. simpl.
  rewrite bind_run. unfold lift at 1.
  destruct (_create_check_class X self check_type) as [check_class|e] eqn:Hclass;
    [|unchanged].
  destruct (check_init X check_class check_description check_rule (_field_names self)
              (_location self)) as [e|] eqn:Hinit; [rewrite bind_run; unchanged|].
  rewrite bind_ret, bind_run. unfold on_location.
  destruct (_location self) as [l|] eqn:Hl; [|unchanged].
  rewrite bind_run. simpl.
  destruct (_check_name_to_check_map self !! check_description) as [existing|] eqn:Hfresh;
    [unchanged|].
  simpl. intros Hrun. right. exists check_description, check_type, check_rule, check_class.
  repeat (split; [done|]).
  rewrite bind_run in Hrun. simpl in Hrun. rewrite bind_run in Hrun. simpl in Hrun.
  match type of Hrun with context [assert ?b] => destruct b end;
    simpl in Hrun; injection Hrun as <- <-; split; eauto.
Qed.

Lemma on_location_consistent method : preserves consistent (on_location method).
Proof.
  intros self Hc. eapply model_consistent; [|exact Hc].
  apply (keeps_on_location model method). reflexivity.
Qed.

Lemma set_location_consistent v : preserves consistent (modify (set__location v)).
Proof. intros self Hc. eapply model_consistent; [|exact Hc]. reflexivity. Qed.

Lemma set_data_format_consistent v : preserves consistent (modify (set__data_format v)).
Proof. intros self []. by split. Qed.

Lemma add_field_format_consistent X items : preserves consistent (add_field_format X items).
Proof.
  intros self Hc. destruct (add_field_format X items self) as [r self'] eqn:Hrun. simpl.
  apply add_field_format_outcome in Hrun
    as [[Hm _]|(parsed & field_format & data_format & _ & Hfresh & Hm & _)].
  - by eapply model_consistent.
  - eapply model_consistent; [exact Hm|]. by apply consistent_register.
Qed.

Lemma add_check_consistent X items : preserves consistent (add_check X items).
Proof.
  intros self Hc. destruct (add_check X items self) as [r self'] eqn:Hrun. simpl.
  apply add_check_outcome in Hrun
    as [[Hm _]|(check_description & check_type & check_rule & check_class & _ & _ & _ & Hfresh
                & Hm & _)].
  - by eapply model_consistent.
  - eapply model_consistent; [exact Hm|]. by apply consistent_add_check.
Qed.

Ltac consistent_step :=
  lazymatch goal with
  | |- preserves _ (on_location _) => apply on_location_consistent
  | |- preserves _ (add_field_format _ _) => apply add_field_format_consistent
  | |- preserves _ (add_check _ _) => apply add_check_consistent
  | |- preserves _ (modify (set__data_format _)) => apply set_data_format_consistent
  | |- preserves _ (modify (set__location _)) => apply set_location_consistent
  | |- _ => preserves_base_step
  end.

Lemma read_row_consistent X row : preserves consistent (read_row X row).
Proof. unfold read_row. repeat consistent_step. Qed.

Lemma read_rows_consistent X rows : preserves consistent (read_rows X rows).
Proof.
  induction rows as [|row rows IH]; simpl.
  - apply preserves_same_object. reflexivity.
  - apply preserves_bind; [apply read_row_consistent|intros; apply IH].
Qed.

Lemma read_consistent X source_path rows : preserves consistent (read X source_path rows).
Proof.
  unfold read. apply preserves_bind; [apply set_location_consistent|].
  intros. apply read_rows_consistent.
Qed.

Lemma new_Cid_consistent check_classes field_format_classes self :
  new_Cid check_classes field_format_classes = Returned self → consistent self.
Proof.
  unfold new_Cid.
  destruct (_create_name_to_class_map check_classes); [|discriminate].
  destruct (_create_name_to_class_map field_format_classes); [|discriminate].
  simpl. intros [= <-]. split; simpl; try done; try apply NoDup_nil_2.
  - intros name. rewrite lookup_empty. split; [by intros [? ?]|by intros ?%elem_of_nil].
  - intros name. rewrite lookup_empty. split; [by intros [? ?]|by intros ?%elem_of_nil].
Qed.

Lemma reachable_consistent X self : reachable X self → consistent self.
Proof.
  induction 1 as [? ? ? Hnew| | |].
  - by eapply new_Cid_consistent.
  - by apply read_consistent.
  - by apply add_field_format_consistent.
  - by apply add_check_consistent.
Qed.

(** ** The class maps *)

Lemma create_name_to_class_map_from_dot_free result subclasses class_map :
  dot_free_keys result →
  _create_name_to_class_map_from result subclasses = Returned class_map →
  dot_free_keys class_map.
Proof.
  revert result. induction subclasses as [|class_to_process rest IH]; intros result Hresult.
  - simpl. by intros [= <-].
  - simpl. unfold _create_name_to_class_map_step.
    destruct (result !! PyStr.last_dotted (class_name class_to_process)) as [clashing|] eqn:Hkey.
    + destruct (_class_info clashing) as [clashing_info|]; simpl; [|discriminate].
      destruct (_class_info class_to_process) as [info|]; simpl; [|discriminate].
      destruct (decide (clashing_info = info)); [|discriminate]. simpl. by apply IH.
    + simpl. apply IH. intros key [class Hclass].
      destruct (decide (PyStr.last_dotted (class_name class_to_process) = key)) as [<-|Hne].
      * apply last_dotted_dot_free.
      * rewrite lookup_insert_ne in Hclass by done. apply Hresult. by exists class.
Qed.

Lemma new_Cid_dot_free check_classes field_format_classes self :
  new_Cid check_classes field_format_classes = Returned self →
  dot_free_keys (_check_name_to_class_map self).
Proof.
  unfold new_Cid.
  destruct (_create_name_to_class_map check_classes) as [check_map|] eqn:Hchecks;
    [|discriminate].
  destruct (_create_name_to_class_map field_format_classes); [|discriminate].
  simpl. intros [= <-]. simpl.
  eapply create_name_to_class_map_from_dot_free; [|exact Hchecks].
  intros key [class Hclass]. by rewrite lookup_empty in Hclass.
Qed.

Lemma add_field_format_keeps_check_classes X items :
  keeps _check_name_to_class_map (add_field_format X items).
Proof.
  unfold add_field_format, read_field_items, validate_unique_field_name, validate_example,
    validate_fixed_length, register_field.
  solve_keeps.
Qed.

Lemma add_check_keeps_check_classes X items :
  keeps _check_name_to_class_map (add_check X items).
Proof. unfold add_check, read_check_items. solve_keeps. Qed.

Lemma read_row_keeps_check_classes X row : keeps _check_name_to_class_map (read_row X row).
Proof.
  unfold read_row. apply keeps_bind; [|intros; solve_keeps].
  destruct row as [|tag cells]; [solve_keeps|].
  destruct (String.eqb (PyStr.lower tag) "d"); [solve_keeps|].
  destruct (String.eqb (PyStr.lower tag) "f"); [apply add_field_format_keeps_check_classes|].
  destruct (String.eqb (PyStr.lower tag) "c"); [apply add_check_keeps_check_classes|].
  solve_keeps.
Qed.

Lemma read_keeps_check_classes X source_path rows :
  keeps _check_name_to_class_map (read X source_path rows).
Proof.
  unfold read. apply keeps_bind; [solve_keeps|]. intros _.
  induction rows as [|row rows IH]; simpl; [solve_keeps|].
  apply keeps_bind; [apply read_row_keeps_check_classes|intros; apply IH].
Qed.

Lemma reachable_dot_free X self :
  reachable X self → dot_free_keys (_check_name_to_class_map self).
Proof.
  induction 1 as [? ? ? Hnew| | |].
  - by eapply new_Cid_dot_free.
  - by rewrite read_keeps_check_classes.
  - by rewrite add_field_format_keeps_check_classes.
  - by rewrite add_check_keeps_check_classes.
Qed.

Lemma create_check_class_resolves X self check_type check_class :
  dot_free_keys (_check_name_to_class_map self) →
  _check_name_to_class_map self !! (check_type +:+ "Check") = Some check_class →
  check_type ≠ EmptyString →
  _create_check_class X self check_type = Returned check_class.
Proof.
  intros Hdot Hclass Htype.
  assert (PyStr.last_dotted check_type = check_type) as Hlast.
  { apply last_dotted_of_dot_free.
    assert (PyStr.contains PyStr.dot (check_type +:+ "Check") = false) as Hfree
      by (apply Hdot; by exists check_class).
    rewrite contains_append in Hfree. by apply orb_false_iff in Hfree as [? _]. }
  unfold _create_check_class, _create_class.
  rewrite (truthy_not_empty _ Htype), Hlast, Hclass.
  rewrite bool_decide_eq_false_2; [done|].
  intros Hempty. by rewrite Hempty, lookup_empty in Hclass.
Qed.

Lemma check_type_scan_found class_map items cells found check_type rule_index :
  fold_left (check_type_scan_step class_map items) cells found = (Some check_type, rule_index) →
  found.1 = Some check_type ∨ resolves class_map check_type.
Proof.
  revert found. induction cells as [|i cells IH]; intros found; simpl.
  - intros ->. by left.
  - intros Hfold. apply IH in Hfold as [Hfound|?]; [|by right].
    unfold check_type_scan_step in Hfound.
    destruct (items !! i) as [item|]; [|by left].
    destruct (bool_decide_reflect (is_Some (class_map !! (item +:+ "Check"))));
      [|by left].
    simpl in Hfound. injection Hfound as <-. by right.
Qed.

Lemma read_check_items_inv items self check_description check_type check_rule self' :
  read_check_items items self = (Returned (check_description, check_type, check_rule), self') →
  items !! 0 = Some check_description
  ∧ check_type ≠ EmptyString
  ∧ resolves (_check_name_to_class_map self) check_type.
Proof.
  unfold read_check_items.
  destruct (length items <? 2)%nat; [discriminate|].
  rewrite bind_run. unfold lift at 1, item_at at 1.
  destruct (items !! 0) as [item|]; [|discriminate].
  rewrite bind_run. simpl.
  destruct (check_type_scan (_check_name_to_class_map self) items) as [found rule_index]
    eqn:Hscan.
  destruct found as [found|]; simpl; [|discriminate].
  destruct found as [|c found]; simpl; [discriminate|].
  rewrite bind_run.
  match goal with
  | |- match ?run with _ => _ end = _ → _ => destruct run as [[rule'|e] self1]
  end; [|discriminate].
  simpl. intros [= <- <- <- <-].
  split; [done|]. split; [done|].
  apply check_type_scan_found in Hscan as [Hnone|?]; [discriminate|done].
Qed.

(** ** Field rows that are turned down *)


Lemma fixture_cid_is_new :
  new_Cid Fixture.check_classes Fixture.field_format_classes = Returned Fixture.cid.
Proof. vm_compute. reflexivity. Qed.

Lemma fixture_compile_reachable rows : reachable Fixture.externals (Fixture.compile rows).2.
Proof. apply reachable_read, (reachable_new _ _ _ _ fixture_cid_is_new). Qed.



(** C2 (as amended).  Under the fixed format [add_field_format] either leaves the fields
    as they were and does not return, or has added a field whose length is a
    single interval [(n, n)] with [n] at least 1.  A field row that was read,
    whose format was constructed, whose name is new and whose example is
    valid, but whose length is anything else, makes it raise a
    [FieldSyntaxError] located at cell 4, the fields staying as they were.
    (An interval without any bound is compared with 1 by the interpreter:
    the second part holds for it where [None < 1] is true, as on Python 2.) *)
Theorem fixed_format_needs_single_length X row_items self data_format :
  _data_format self = Some data_format →
  format data_format = FORMAT_FIXED →
  (∀ r self',
     add_field_format X row_items self = (r, self') →
     (fields_of self' = fields_of self ∧ r ≠ Returned ())
     ∨ ∃ name added n,
         _field_names self' = _field_names self ++ [name]
         ∧ _field_formats self' = _field_formats self ++ [added]
         ∧ single_value (length_ added) n ∧ (1 ≤ n)%Z)
  ∧ (∀ parsed self1 constructed self2,
       reachable X self → has_location self →
       read_field_items X row_items self = (Returned parsed, self1) →
       field_name parsed ∉ _field_names self →
       validate_example X (field_name parsed) (field_example parsed) (field_format parsed)
         self1 = (Returned constructed, self2) →
       ¬ (∃ n, single_value (length_ constructed) n ∧ (1 ≤ n)%Z) →
       items (length_ constructed) ≠ Some [(None, None)] ∨ none_lt X 1 = None →
       ∃ message l self',
         add_field_format X row_items self
         = (Raised (mkException FieldSyntaxError message (Some l) None None), self')
         ∧ loc_cell l = 4
         ∧ fields_of self' = fields_of self).
Proof.
  intros Hd Hfixed. split.
  - intros r self' Hrun.
    apply add_field_format_outcome in Hrun
      as [[Hm Hr]|(parsed & field_format & data_format' & Hd' & _ & Hm & Hshape & _)].
    + left. split; [by apply model_fields_of|done].
    + right. assert (data_format' = data_format) as -> by congruence.
      destruct (Hshape Hfixed) as (n & Hn & Hle).
      exists (field_name parsed), field_format, n.
      split; [exact (f_equal _field_names Hm)|].
      split; [exact (f_equal _field_formats Hm)|done].
  - intros parsed self1 constructed self2 Hreach Hl Hread Hnew Hexample Hshape Hnone.
    pose proof (reachable_consistent _ _ Hreach) as Hcons.
    pose proof (read_field_items_not_empty _ _ _ _ _ Hread) as Hlen.
    pose proof (cursor_only_run _ _ _ _ (read_field_items_cursor_only X row_items) Hread)
      as Hm1.
    pose proof (preserves_run _ _ _ _ _ (read_field_items_has_location X row_items) Hl Hread)
      as Hl1.
    pose proof (cursor_only_run _ _ _ _ (validate_example_cursor_only X _ _ _) Hexample)
      as Hm2.
    pose proof (preserves_run _ _ _ _ _ (validate_example_has_location X _ _ _) Hl1 Hexample)
      as [l2 Hl2].
    rewrite (add_field_format_run X row_items self data_format Hl Hd Hcons Hlen).
    rewrite (bind_returned _ _ _ _ _ Hread).
    erewrite bind_returned.
    2:{ apply validate_unique_field_name_returned.
        rewrite (model_format_map _ _ Hm1).
        destruct (_field_name_to_format_map self !! field_name parsed) eqn:Hold; [|done].
        destruct Hnew. apply (format_map_names _ Hcons). by eexists. }
    rewrite (bind_returned _ _ _ _ _ Hexample).
    destruct (validate_fixed_length_raised X data_format (field_name parsed) constructed
                self2 l2 Hfixed Hl2 Hshape Hnone) as [message Hraise].
    rewrite (bind_raised _ _ _ _ _ Hraise).
    exists message, (set_cell 4 l2), (set__location (Some (set_cell 4 l2)) self2).
    split; [done|]. split; [done|].
    apply model_fields_of. change (model self2 = model self). congruence.
Qed.

Lemma fixed_format_needs_single_length_witness :
  ∃ message l self',
    add_field_format Fixture.externals ["id"; "1"; EmptyString; "3:5"; "Integer"; EmptyString]
      (Fixture.compile [["d"; "format"; "fixed"]]).2
    = (Raised (mkException FieldSyntaxError message (Some l) None None), self')
    ∧ loc_cell l = 4
    ∧ fields_of self' = fields_of (Fixture.compile [["d"; "format"; "fixed"]]).2.
Proof.
  refine (proj2 (fixed_format_needs_single_length Fixture.externals
                   ["id"; "1"; EmptyString; "3:5"; "Integer"; EmptyString]
                   (Fixture.compile [["d"; "format"; "fixed"]]).2
                   (mkDataFormat "fixed" []) _ _)
            (mkFieldRow "id" (Some "1") false (Some "3:5") "Integer" EmptyString
               (mkFieldFormat
                  (mkClass "IntegerFieldFormat" "cutplace.fields" (SourcePath "fields.py"))
                  "id" false (mkRange (Some [(Some 3%Z, Some 5%Z)])) EmptyString None))
            (set__location (Some (mkLocation "icd" 2 6 true))
               (Fixture.compile [["d"; "format"; "fixed"]]).2)
            (mkFieldFormat
               (mkClass "IntegerFieldFormat" "cutplace.fields" (SourcePath "fields.py"))
               "id" false (mkRange (Some [(Some 3%Z, Some 5%Z)])) EmptyString (Some "1"))
            (set__location (Some (mkLocation "icd" 2 6 true))
               (Fixture.compile [["d"; "format"; "fixed"]]).2)
            _ _ _ _ _ _ _).
  - vm_compute. reflexivity.
  - reflexivity.
  - apply fixture_compile_reachable.
  - eexists. vm_compute. reflexivity.
  - vm_compute. reflexivity.
  - vm_compute. apply not_elem_of_nil.
  - vm_compute. reflexivity.
  - intros (n & Hn & _). unfold single_value in Hn. simpl in Hn. congruence.
  - left. discriminate.
Defined.

(** C2 (as stated) fails: under the fixed format, after the field row
    [id, , , 4, Integer], the field row [id, , , 3:5, Integer] has the length
    3 to 5, and [add_field_format] raises for its name, at cell 1: the name is
    looked up before the length. *)
Lemma other_length_is_not_always_rejected_at_cell_4 :
  ¬ (∀ X row_items self data_format parsed self1,
       reachable X self → has_location self →
       _data_format self = Some data_format → format data_format = FORMAT_FIXED →
       read_field_items X row_items self = (Returned parsed, self1) →
       ¬ (∃ n, single_value (length_ (field_format parsed)) n ∧ (1 ≤ n)%Z) →
       ∃ message l self',
         add_field_format X row_items self
         = (Raised (mkException FieldSyntaxError message (Some l) None None), self')
         ∧ loc_cell l = 4).
Proof.
  intros H.
  edestruct (H Fixture.externals ["id"; EmptyString; EmptyString; "3:5"; "Integer"; EmptyString]
               (Fixture.compile [["d"; "format"; "fixed"];
                                 ["f"; "id"; EmptyString; EmptyString; "4"; "Integer"]]).2
               (mkDataFormat "fixed" []))
    as (message & l & self' & Hrun & Hcell).
  - apply fixture_compile_reachable.
  - eexists. vm_compute. reflexivity.
  - vm_compute. reflexivity.
  - reflexivity.
  - vm_compute. reflexivity.
  - intros (n & Hn & _). unfold single_value in Hn. simpl in Hn. congruence.
  - vm_compute in Hrun. injection Hrun as <- <- <-. discriminate Hcell.
Qed.

(** ** Check rows that are turned down *)





(** ** The invariant of the schema model *)

(** C4.  In every object a program can reach (a new [Cid], then any calls of
    [read], [add_field_format] and [add_check], returned or raised) the list
    of field names is as long as the list of formats and as each of the two
    maps is large; the index map holds a name under an index exactly when
    the name stands at that position of the list, where [field_index] finds
    it; field names are pairwise distinct, and so are check descriptions. *)
Theorem model_stays_consistent X self :
  reachable X self →
  length (_field_names self) = length (_field_formats self)
  ∧ length (_field_names self) = size (_field_name_to_format_map self)
  ∧ length (_field_names self) = size (_field_name_to_index_map self)
  ∧ (∀ name i,
       _field_name_to_index_map self !! name = Some i ↔ _field_names self !! i = Some name)
  ∧ (∀ name i, _field_names self !! i = Some name → field_index X name self = (Returned i, self))
  ∧ NoDup (_field_names self)
  ∧ NoDup (_check_names self)
  ∧ length (_check_names self) = size (_check_name_to_check_map self).
Proof.
  intros Hreach. destruct (reachable_consistent _ _ Hreach)
    as [Hformats Hformat_map Hindex_map Hposition Hnames Hdistinct Hchecks Hcheck_count
          Hcheck_distinct].
  repeat split; try done; try apply Hposition.
  intros name i Hi. apply Hposition in Hi.
  unfold field_index. rewrite bind_run. simpl. by rewrite Hi.
Qed.

Lemma model_stays_consistent_witness :
  NoDup (_field_names
           (Fixture.compile
              [["d"; "format"; "delimited"]; ["f"; "id"]; ["f"; "name"];
               ["c"; "desc1"; "IsUnique"; "id"]]).2).
Proof.
  apply (model_stays_consistent Fixture.externals
           (Fixture.compile
              [["d"; "format"; "delimited"]; ["f"; "id"]; ["f"; "name"];
               ["c"; "desc1"; "IsUnique"; "id"]]).2).
  apply reachable_read, (reachable_new _ _ _ _ fixture_cid_is_new).
Defined.

(** ** The scenarios of the specification, run *)

(** Scenario A: a data format row for the fixed format, then the field [id]
    of length [4:4], compile to one field of length 4. *)
Example scenario_fixed_length_four :
  let compiled :=
    Fixture.compile
      [["d"; "format"; "fixed"]; ["f"; "id"; "1"; EmptyString; "4:4"; "Integer"; EmptyString]] in
  compiled.1 = Returned ()
  ∧ _field_names compiled.2 = ["id"]
  ∧ (length_ <$> _field_formats compiled.2) = [mkRange (Some [(Some 4%Z, Some 4%Z)])]
  ∧ _field_name_to_index_map compiled.2 !! "id" = Some 0.
Proof. vm_compute. repeat split. Qed.

(** Scenario B: the same with the length [3:5] is turned down at cell 4. *)
Example scenario_fixed_length_range :
  let compiled :=
    Fixture.compile
      [["d"; "format"; "fixed"]; ["f"; "id"; "1"; EmptyString; "3:5"; "Integer"; EmptyString]] in
  compiled.1
  = Raised (mkException FieldSyntaxError
              (MsgFixedLengthSingle "id" (mkRange (Some [(Some 3%Z, Some 5%Z)])))
              (Some (mkLocation "icd" 2 4 true)) None None)
  ∧ _field_names compiled.2 = [].
Proof. vm_compute. repeat split. Qed.

(** Scenario F: a field row without cells. *)
Example scenario_field_row_without_cells :
  (add_field_format Fixture.externals [] (Fixture.compile [["d"; "format"; "delimited"]]).2).1
  = Raised (mkException FieldSyntaxError (MsgFieldRowEmpty "f")
              (Some (mkLocation "icd" 2 1 true)) None None).
Proof. vm_compute. reflexivity. Qed.

(** A row with an unknown tag, and a blank row. *)
Example scenario_unknown_tag :
  (Fixture.compile [[]; ["X"; "y"]]).1
  = Raised (mkException DataFormatSyntaxError (MsgRowType "x")
              (Some (mkLocation "icd" 2 1 true)) None None).
Proof. vm_compute. reflexivity. Qed.

(** * Further properties *)

(** ** The registry of classes *)













(** ** Formats by name and by position *)

Lemma model_aligned self self' : model self' = model self → aligned self → aligned self'.
Proof.
  intros H Haligned.
  pose proof (f_equal _field_names H) as Hn. pose proof (f_equal _field_formats H) as Hf.
  pose proof (f_equal _field_name_to_format_map H) as Hfm.
  simpl in *. unfold aligned. by rewrite Hn, Hf, Hfm.
Qed.

Lemma aligned_register self field_name field_format :
  consistent self → aligned self → _field_name_to_format_map self !! field_name = None →
  aligned (set_fields (_field_names self ++ [field_name])
             (_field_formats self ++ [field_format])
             (<[field_name := field_format]> (_field_name_to_format_map self))
             (<[field_name := length (_field_names self)]> (_field_name_to_index_map self))
             self).
Proof.
  intros Hcons Haligned Hfresh i name. simpl. intros Hi.
  destruct (decide (i < length (_field_names self))) as [Hlt|Hge].
  - rewrite lookup_app_l in Hi by done.
    rewrite lookup_app_l by (by rewrite (formats_count _ Hcons)).
    rewrite lookup_insert_ne; [by apply Haligned|].
    intros <-. rewrite (Haligned _ _ Hi) in Hfresh.
    apply lookup_ge_None in Hfresh. rewrite (formats_count _ Hcons) in Hfresh. lia.
  - pose proof (lookup_lt_Some _ _ _ Hi) as Hbound. rewrite length_app in Hbound.
    simpl in Hbound. assert (i = length (_field_names self)) as -> by lia.
    rewrite list_lookup_middle in Hi by done. injection Hi as <-.
    rewrite lookup_insert_eq. symmetry. apply list_lookup_middle.
    by rewrite (formats_count _ Hcons).
Qed.

Lemma on_location_sound method :
  preserves (λ self, consistent self ∧ aligned self) (on_location method).
Proof.
  intros self [Hc Ha].
  assert (model (on_location method self).2 = model self) as Hm
    by (apply (keeps_on_location model method); reflexivity).
  split; [exact (model_consistent _ _ Hm Hc)|exact (model_aligned _ _ Hm Ha)].
Qed.

Lemma set_location_sound v :
  preserves (λ self, consistent self ∧ aligned self) (modify (set__location v)).
Proof.
  intros self [Hc Ha].
  split; [exact (model_consistent self (set__location v self) eq_refl Hc)|].
  exact (model_aligned self (set__location v self) eq_refl Ha).
Qed.

Lemma set_data_format_sound v :
  preserves (λ self, consistent self ∧ aligned self) (modify (set__data_format v)).
Proof. intros self [Hc Ha]. split; [by apply set_data_format_consistent|done]. Qed.

Lemma add_field_format_sound X items :
  preserves (λ self, consistent self ∧ aligned self) (add_field_format X items).
Proof.
  intros self [Hc Ha]. split; [by apply add_field_format_consistent|].
  destruct (add_field_format X items self) as [r self'] eqn:Hrun. simpl.
  apply add_field_format_outcome in Hrun
    as [[Hm _]|(parsed & field_format & data_format & _ & Hfresh & Hm & _)].
  - by eapply model_aligned.
  - eapply model_aligned; [exact Hm|]. by apply aligned_register.
Qed.

Lemma add_check_sound X items :
  preserves (λ self, consistent self ∧ aligned self) (add_check X items).
Proof.
  intros self [Hc Ha]. split; [by apply add_check_consistent|].
  destruct (add_check X items self) as [r self'] eqn:Hrun. simpl.
  apply add_check_outcome in Hrun
    as [[Hm _]|(check_description & check_type & check_rule & check_class & _ & _ & _ & _
                & Hm & _)].
  - by eapply model_aligned.
  - eapply model_aligned; [exact Hm|]. exact Ha.
Qed.

Ltac sound_step :=
  lazymatch goal with
  | |- preserves _ (on_location _) => apply on_location_sound
  | |- preserves _ (add_field_format _ _) => apply add_field_format_sound
  | |- preserves _ (add_check _ _) => apply add_check_sound
  | |- preserves _ (modify (set__data_format _)) => apply set_data_format_sound
  | |- preserves _ (modify (set__location _)) => apply set_location_sound
  | |- _ => preserves_base_step
  end.

Lemma read_sound X source_path rows :
  preserves (λ self, consistent self ∧ aligned self) (read X source_path rows).
Proof.
  unfold read. apply preserves_bind; [apply set_location_sound|]. intros _.
  induction rows as [|row rows IH]; simpl.
  - apply preserves_same_object. reflexivity.
  - apply preserves_bind; [|intros; apply IH]. unfold read_row. repeat sound_step.
Qed.

Lemma reachable_sound X self : reachable X self → consistent self ∧ aligned self.
Proof.
  induction 1 as [? ? ? Hnew| | |].
  - split; [by eapply new_Cid_consistent|].
    unfold new_Cid in Hnew.
    destruct (_create_name_to_class_map check_classes); [|discriminate].
    destruct (_create_name_to_class_map field_format_classes); [|discriminate].
    simpl in Hnew. injection Hnew as <-. intros i name Hi. simpl in Hi.
    by rewrite lookup_nil in Hi.
  - by apply read_sound.
  - by apply add_field_format_sound.
  - by apply add_check_sound.
Qed.

(** X3.  In every object a program can reach, the accessors agree: for the
    name at position [i] of the field names, [field_index] returns [i], and
    [field_format_for] of the name and [field_format_at] of [i] return the
    same format; none of the three changes the object. *)
Theorem accessors_agree X self i name :
  reachable X self →
  _field_names self !! i = Some name →
  ∃ field_format,
    field_index X name self = (Returned i, self)
    ∧ field_format_for name self = (Returned field_format, self)
    ∧ field_format_at i self = (Returned field_format, self).
Proof.
  intros Hreach Hi. destruct (reachable_sound _ _ Hreach) as [Hcons Haligned].
  assert (is_Some (_field_formats self !! i)) as [field_format Hformat].
  { apply lookup_lt_is_Some. rewrite (formats_count _ Hcons). by eapply lookup_lt_Some. }
  exists field_format. split; [|split].
  - unfold field_index. rewrite bind_run. simpl.
    by rewrite (proj2 (index_is_position _ Hcons name i) Hi).
  - unfold field_format_for. rewrite bind_run. simpl.
    by rewrite (Haligned _ _ Hi), Hformat.
  - unfold field_format_at. rewrite bind_run. simpl. unfold lift, item_at.
    by rewrite Hformat.
Qed.

Lemma accessors_agree_witness :
  ∃ field_format,
    field_index Fixture.externals "name"
      (Fixture.compile [["d"; "format"; "delimited"]; ["f"; "id"]; ["f"; "name"]]).2
    = (Returned 1, (Fixture.compile [["d"; "format"; "delimited"]; ["f"; "id"]; ["f"; "name"]]).2)
    ∧ field_format_for "name"
        (Fixture.compile [["d"; "format"; "delimited"]; ["f"; "id"]; ["f"; "name"]]).2
      = (Returned field_format,
         (Fixture.compile [["d"; "format"; "delimited"]; ["f"; "id"]; ["f"; "name"]]).2)
    ∧ field_format_at 1
        (Fixture.compile [["d"; "format"; "delimited"]; ["f"; "id"]; ["f"; "name"]]).2
      = (Returned field_format,
         (Fixture.compile [["d"; "format"; "delimited"]; ["f"; "id"]; ["f"; "name"]]).2).
Proof.
  apply (accessors_agree Fixture.externals
           (Fixture.compile [["d"; "format"; "delimited"]; ["f"; "id"]; ["f"; "name"]]).2
           1 "name").
  - apply fixture_compile_reachable.
  - vm_compute. reflexivity.
Defined.

(** X4.  In every object a program can reach, a name that is not a field
    name makes [field_index] raise a [FieldLookupError] that lists the known
    names, sorted, and [field_format_for] raise a [KeyError]; an index from
    the number of fields on makes [field_format_at] raise an [IndexError].
    The object stays as it was. *)
Theorem accessors_reject_unknown_fields X self :
  reachable X self →
  (∀ name, name ∉ _field_names self →
     field_index X name self
     = (Raised (mkException FieldLookupError
                  (MsgUnknownFieldName name (humanReadableList X (sorted (_field_names self))))
                  None None None), self)
     ∧ field_format_for name self
       = (Raised (mkException (OtherError "KeyError") MsgNone None None None), self))
  ∧ (∀ i, length (_field_names self) ≤ i →
       field_format_at i self
       = (Raised (mkException IndexError MsgNone None None None), self)).
Proof.
  intros Hreach. pose proof (reachable_consistent _ _ Hreach) as Hcons. split.
  - intros name Hname. split.
    + unfold field_index. rewrite bind_run. simpl.
      destruct (_field_name_to_index_map self !! name) as [i|] eqn:Hi; [|done].
      destruct Hname. apply (index_is_position _ Hcons) in Hi.
      by eapply list_elem_of_lookup_2.
    + unfold field_format_for. rewrite bind_run. simpl.
      destruct (_field_name_to_format_map self !! name) as [f|] eqn:Hf; [|done].
      destruct Hname. apply (format_map_names _ Hcons). by eexists.
  - intros i Hi. unfold field_format_at. rewrite bind_run. simpl. unfold lift, item_at.
    rewrite lookup_ge_None_2; [done|]. by rewrite (formats_count _ Hcons).
Qed.

Lemma accessors_reject_unknown_fields_witness :
  field_format_at 1 (Fixture.compile [["d"; "format"; "delimited"]; ["f"; "id"]]).2
  = (Raised (mkException IndexError MsgNone None None None),
     (Fixture.compile [["d"; "format"; "delimited"]; ["f"; "id"]]).2).
Proof.
  apply (proj2 (accessors_reject_unknown_fields Fixture.externals
                  (Fixture.compile [["d"; "format"; "delimited"]; ["f"; "id"]]).2
                  (fixture_compile_reachable _))).
  vm_compute. lia.
Defined.

(** ** Field rows that are accepted *)

Lemma bind_returns {A B} (P : B → Prop) (m : M A) (f : A → M B) :
  (∀ a self b self', f a self = (Returned b, self') → P b) →
  ∀ self b self', (m ≫= f) self = (Returned b, self') → P b.
Proof.
  intros Hf self b self'. rewrite bind_run.
  destruct (m self) as [[a|e] self1]; [apply Hf|discriminate].
Qed.

Lemma read_field_items_field_type X items self parsed self' :
  read_field_items X items self = (Returned parsed, self') →
  PyStr.truthy (field_type parsed) = true.
Proof.
  revert self parsed self'. unfold read_field_items.
  do 11 (apply (bind_returns (λ parsed, PyStr.truthy (field_type parsed) = true)); intros ?).
  intros self0 b self' [= <- _]. simpl.
  match goal with
  | |- context [match ?chosen with Some _ => _ | None => _ end] =>
      destruct chosen as [chosen_type|]
  end; [|done].
  by destruct (PyStr.truthy chosen_type) eqn:Htruthy.
Qed.

Lemma validate_fixed_length_returned X data_format field_name field_format self :
  has_location self →
  format data_format ≠ FORMAT_FIXED
  ∨ (∃ n, single_value (length_ field_format) n ∧ (1 ≤ n)%Z) →
  ∃ self',
    validate_fixed_length X data_format field_name field_format self = (Returned (), self')
    ∧ model self' = model self ∧ has_location self'.
Proof.
  intros [l Hl] Hok. unfold validate_fixed_length.
  destruct (String.eqb_spec (format data_format) FORMAT_FIXED) as [Hfixed|Hother].
  - destruct Hok as [?|(n & Hn & Hle)]; [done|].
    exists (set__location (Some (set_cell 4 l)) self).
    rewrite bind_run, (on_location_run _ _ _ Hl). unfold single_value in Hn. rewrite Hn.
    simpl. unfold bound_eqb. rewrite bool_decide_eq_true_2 by done.
    rewrite !bind_run. simpl.
    destruct (Z.ltb_spec n 1); [lia|]. simpl. split; [done|]. split; [done|by eexists].
  - exists self. split; [done|]. split; [done|by exists l].
Qed.

(** X5.  A field row that was read, with a name that is not empty and not
    yet a field name, a valid example and, under the fixed format, a single
    length of at least 1, is accepted: [add_field_format] returns, the name
    is the last of the field names, [field_index] returns for it the former
    number of fields, [field_format_for] and [field_format_at] return its
    format, and checks and data format are as before. *)
Theorem accepted_field_is_found X row_items self data_format parsed self1 constructed self2 :
  reachable X self → has_location self → _data_format self = Some data_format →
  read_field_items X row_items self = (Returned parsed, self1) →
  field_name parsed ≠ EmptyString →
  field_name parsed ∉ _field_names self →
  validate_example X (field_name parsed) (field_example parsed) (field_format parsed) self1
  = (Returned constructed, self2) →
  format data_format ≠ FORMAT_FIXED
  ∨ (∃ n, single_value (length_ constructed) n ∧ (1 ≤ n)%Z) →
  ∃ self',
    add_field_format X row_items self = (Returned (), self')
    ∧ _field_names self' = _field_names self ++ [field_name parsed]
    ∧ field_index X (field_name parsed) self' = (Returned (length (_field_names self)), self')
    ∧ field_format_for (field_name parsed) self' = (Returned constructed, self')
    ∧ field_format_at (length (_field_names self)) self' = (Returned constructed, self')
    ∧ checks_of self' = checks_of self
    ∧ _data_format self' = _data_format self.
Proof.
  intros Hreach Hl Hd Hread Hname Hnew Hexample Hlength.
  pose proof (reachable_consistent _ _ Hreach) as Hcons.
  pose proof (read_field_items_not_empty _ _ _ _ _ Hread) as Hlen.
  pose proof (cursor_only_run _ _ _ _ (read_field_items_cursor_only X row_items) Hread) as Hm1.
  pose proof (preserves_run _ _ _ _ _ (read_field_items_has_location X row_items) Hl Hread)
    as Hl1.
  pose proof (cursor_only_run _ _ _ _ (validate_example_cursor_only X _ _ _) Hexample) as Hm2.
  pose proof (preserves_run _ _ _ _ _ (validate_example_has_location X _ _ _) Hl1 Hexample)
    as Hl2.
  destruct (validate_fixed_length_returned X data_format (field_name parsed) constructed self2
              Hl2 Hlength) as (self3 & Hfixed & Hm3 & [l3 Hl3]).
  assert (model self3 = model self) as Hm by congruence.
  pose proof (f_equal _field_names Hm) as Hnames.
  pose proof (f_equal _field_formats Hm) as Hformats.
  pose proof (f_equal _field_name_to_format_map Hm) as Hformat_map.
  pose proof (f_equal _field_name_to_index_map Hm) as Hindex_map.
  pose proof (f_equal _check_names Hm) as Hcheck_names.
  pose proof (f_equal _check_name_to_check_map Hm) as Hcheck_map.
  pose proof (f_equal _data_format Hm) as Hdata_format.
  simpl in Hnames, Hformats, Hformat_map, Hindex_map, Hcheck_names, Hcheck_map, Hdata_format.
  eexists.
  split.
  { rewrite (add_field_format_run X row_items self data_format Hl Hd Hcons Hlen).
    rewrite (bind_returned _ _ _ _ _ Hread).
    erewrite bind_returned.
    2:{ apply validate_unique_field_name_returned.
        rewrite (model_format_map _ _ Hm1).
        destruct (_field_name_to_format_map self !! field_name parsed) eqn:Hold; [|done].
        destruct Hnew. apply (format_map_names _ Hcons). by eexists. }
    rewrite (bind_returned _ _ _ _ _ Hexample).
    rewrite (bind_returned _ _ _ _ _ Hfixed).
    unfold register_field. rewrite !bind_run, (on_location_run _ _ _ Hl3). simpl.
    rewrite (truthy_not_empty _ Hname). simpl.
    rewrite (read_field_items_field_type _ _ _ _ _ Hread). reflexivity. }
  simpl. rewrite Hnames, Hformats, Hformat_map, Hindex_map.
  split; [done|]. split; [|split; [|split]].
  - unfold field_index. rewrite bind_run. simpl. by rewrite lookup_insert_eq.
  - unfold field_format_for. rewrite bind_run. simpl. by rewrite lookup_insert_eq.
  - unfold field_format_at. rewrite bind_run. simpl. unfold lift, item_at.
    rewrite list_lookup_middle; [done|]. by rewrite (formats_count _ Hcons).
  - split; [|done]. unfold checks_of. simpl. by rewrite Hcheck_names, Hcheck_map.
Qed.

Lemma accepted_field_is_found_witness :
  ∃ self',
    add_field_format Fixture.externals ["name"; "Ann"]
      (Fixture.compile [["d"; "format"; "delimited"]; ["f"; "id"]]).2
    = (Returned (), self')
    ∧ _field_names self' = ["id"] ++ ["name"]
    ∧ field_index Fixture.externals "name" self' = (Returned 1, self').
Proof.
  destruct (accepted_field_is_found Fixture.externals ["name"; "Ann"]
              (Fixture.compile [["d"; "format"; "delimited"]; ["f"; "id"]]).2
              (mkDataFormat "delimited" [])
              (mkFieldRow "name" (Some "Ann") false None "Text" EmptyString
                 (mkFieldFormat (mkClass "TextFieldFormat" "cutplace.fields" (SourcePath "fields.py"))
                    "name" false (mkRange None) EmptyString None))
              (set__location (Some (mkLocation "icd" 3 2 true))
                 (Fixture.compile [["d"; "format"; "delimited"]; ["f"; "id"]]).2)
              (mkFieldFormat (mkClass "TextFieldFormat" "cutplace.fields" (SourcePath "fields.py"))
                 "name" false (mkRange None) EmptyString (Some "Ann"))
              (set__location (Some (mkLocation "icd" 3 2 true))
                 (Fixture.compile [["d"; "format"; "delimited"]; ["f"; "id"]]).2))
    as (self' & Hrun & Hnames & Hindex & _).
  - apply fixture_compile_reachable.
  - eexists. vm_compute. reflexivity.
  - vm_compute. reflexivity.
  - vm_compute. reflexivity.
  - discriminate.
  - vm_compute. intros Hin. apply list_elem_of_singleton in Hin. discriminate.
  - vm_compute. reflexivity.
  - left. discriminate.
  - exists self'. split; [exact Hrun|]. split; [exact Hnames|exact Hindex].
Defined.

(** ** Field rows with a wrong cell *)

(** X6.  When the format turns down the example of a field row that was
    read under a new name, [add_field_format] adds no field; a
    [FieldValueError] of the format is raised again as a [CidSyntaxError]
    located at cell 2 whose message names the field and quotes the cause, any
    other exception is passed on as it is. *)
Theorem invalid_example_is_rejected X items self data_format parsed self1 text error :
  reachable X self → has_location self → _data_format self = Some data_format →
  read_field_items X items self = (Returned parsed, self1) →
  field_name parsed ∉ _field_names self →
  field_example parsed = Some text → text ≠ EmptyString →
  set_example X (field_format parsed) text = Raised error →
  ∃ l self',
    add_field_format X items self
    = (Raised (if decide (exc_class error = FieldValueError)
               then mkException CidSyntaxError
                      (MsgExample (field_name parsed) (exc_message error)) (Some l) None None
               else error), self')
    ∧ (exc_class error = FieldValueError → loc_cell l = 2)
    ∧ fields_of self' = fields_of self.
Proof.
  intros Hreach Hl Hd Hread Hnew Hexample Htext Hset.
  pose proof (reachable_consistent _ _ Hreach) as Hcons.
  pose proof (read_field_items_not_empty _ _ _ _ _ Hread) as Hlen.
  pose proof (cursor_only_run _ _ _ _ (read_field_items_cursor_only X items) Hread) as Hm1.
  pose proof (preserves_run _ _ _ _ _ (read_field_items_has_location X items) Hl Hread)
    as [l1 Hl1].
  rewrite (add_field_format_run X items self data_format Hl Hd Hcons Hlen).
  rewrite (bind_returned _ _ _ _ _ Hread).
  erewrite bind_returned.
  2:{ apply validate_unique_field_name_returned.
      rewrite (model_format_map _ _ Hm1).
      destruct (_field_name_to_format_map self !! field_name parsed) eqn:Hold; [|done].
      destruct Hnew. apply (format_map_names _ Hcons). by eexists. }
  rewrite bind_run. unfold validate_example.
  rewrite Hexample, (truthy_not_empty _ Htext), Hset.
  destruct (decide (exc_class error = FieldValueError)) as [Hclass|Hclass].
  - rewrite bind_run, (on_location_run _ _ _ Hl1). simpl.
    exists (set_cell 2 l1), (set__location (Some (set_cell 2 l1)) self1).
    split; [done|]. split; [done|]. by apply model_fields_of.
  - simpl. exists l1, self1. split; [done|]. split; [done|]. by apply model_fields_of.
Qed.

Lemma invalid_example_is_rejected_witness :
  ∃ l self',
    add_field_format Fixture.externals ["name"; "invalid"]
      (Fixture.compile [["d"; "format"; "delimited"]]).2
    = (Raised (if decide (FieldValueError = FieldValueError)
               then mkException CidSyntaxError (MsgExample "name" (MsgText "invalid example"))
                      (Some l) None None
               else mkException FieldValueError (MsgText "invalid example") None None None),
       self')
    ∧ (FieldValueError = FieldValueError → loc_cell l = 2)
    ∧ fields_of self' = fields_of (Fixture.compile [["d"; "format"; "delimited"]]).2.
Proof.
  apply (invalid_example_is_rejected Fixture.externals ["name"; "invalid"]
           (Fixture.compile [["d"; "format"; "delimited"]]).2
           (mkDataFormat "delimited" [])
           (mkFieldRow "name" (Some "invalid") false None "Text" EmptyString
              (mkFieldFormat (mkClass "TextFieldFormat" "cutplace.fields" (SourcePath "fields.py"))
                 "name" false (mkRange None) EmptyString None))
           (set__location (Some (mkLocation "icd" 2 2 true))
              (Fixture.compile [["d"; "format"; "delimited"]]).2)
           "invalid"
           (mkException FieldValueError (MsgText "invalid example") None None None)).
  - apply fixture_compile_reachable.
  - eexists. vm_compute. reflexivity.
  - vm_compute. reflexivity.
  - vm_compute. reflexivity.
  - vm_compute. apply not_elem_of_nil.
  - reflexivity.
  - discriminate.
  - reflexivity.
Defined.

(** X7.  A field row whose third cell, stripped and in lower case, is
    neither [x] nor empty is turned down once its name is validated:
    [add_field_format] raises a [FieldSyntaxError] that quotes the cell, with
    the cursor two cells on from where it stood, and adds no field. *)
Theorem wrong_empty_mark_is_rejected X items self data_format l name_cell field_name mark :
  reachable X self → _location self = Some l → _data_format self = Some data_format →
  items !! 0 = Some name_cell →
  validated_field_name X name_cell (Some l) = Returned field_name →
  items !! 2 = Some mark →
  PyStr.lower (PyStr.strip mark) ≠ _EMPTY_INDICATOR →
  PyStr.lower (PyStr.strip mark) ≠ EmptyString →
  add_field_format X items self
  = (Raised (mkException FieldSyntaxError
               (MsgEmptyMark _EMPTY_INDICATOR (PyStr.lower (PyStr.strip mark)))
               (Some (advance_cell (advance_cell l))) None None),
     set__location (Some (advance_cell (advance_cell l))) self).
Proof.
  intros Hreach Hl Hd Hname_cell Hname Hmark Hx Hempty.
  pose proof (reachable_consistent _ _ Hreach) as Hcons.
  destruct items as [|c0 [|c1 [|c2 rest]]]; try discriminate.
  simpl in Hname_cell, Hmark. injection Hname_cell as ->. injection Hmark as ->.
  rewrite (add_field_format_run X _ self data_format (ex_intro _ l Hl) Hd Hcons)
    by (simpl; lia).
  erewrite bind_raised; [done|].
  unfold read_field_items. rewrite bind_run. simpl.
  rewrite bind_run. simpl. rewrite Hl, Hname. simpl.
  rewrite bind_run. unfold lift at 1. cbv beta iota.
  erewrite bind_returned.
  2:{ rewrite bind_run, (on_location_run _ _ _ Hl). reflexivity. }
  erewrite bind_raised; [reflexivity|].
  rewrite bind_run. erewrite on_location_run by reflexivity.
  rewrite bind_run. unfold lift at 1, item_at at 1. simpl.
  apply String.eqb_neq in Hx. rewrite Hx. by rewrite (truthy_not_empty _ Hempty).
Qed.

Lemma wrong_empty_mark_is_rejected_witness :
  add_field_format Fixture.externals ["id"; "1"; "yes"]
    (Fixture.compile [["d"; "format"; "delimited"]]).2
  = (Raised (mkException FieldSyntaxError (MsgEmptyMark "x" "yes")
               (Some (mkLocation "icd" 2 3 true)) None None),
     set__location (Some (mkLocation "icd" 2 3 true))
       (Fixture.compile [["d"; "format"; "delimited"]]).2).
Proof.
  apply (wrong_empty_mark_is_rejected Fixture.externals ["id"; "1"; "yes"]
           (Fixture.compile [["d"; "format"; "delimited"]]).2
           (mkDataFormat "delimited" []) (mkLocation "icd" 2 1 true) "id" "id" "yes").
  - apply fixture_compile_reachable.
  - vm_compute. reflexivity.
  - vm_compute. reflexivity.
  - reflexivity.
  - vm_compute. reflexivity.
  - reflexivity.
  - vm_compute. discriminate.
  - vm_compute. discriminate.
Defined.

(** X8.  A field row without cells is turned down where the cursor stands:
    with a data format present [add_field_format] raises a
    [FieldSyntaxError] and leaves the object as it was. *)
Theorem field_row_without_cells_is_rejected X self data_format l :
  reachable X self → _location self = Some l → _data_format self = Some data_format →
  add_field_format X [] self
  = (Raised (mkException FieldSyntaxError (MsgFieldRowEmpty _ID_FIELD_RULE) (Some l) None None),
     self).
Proof.
  intros Hreach Hl Hd.
  destruct (reachable_consistent _ _ Hreach) as [Hformats Hformat_map Hindex_map _ _ _ _ _ _].
  unfold add_field_format. rewrite bind_run. simpl.
  rewrite bool_decide_eq_true_2 by (by rewrite Hl). simpl.
  rewrite bind_run. simpl. rewrite Hd.
  rewrite Hformats, Hformat_map, Hindex_map, Nat.eqb_refl. simpl.
  rewrite !bind_ret. unfold raise_located. by rewrite Hl.
Qed.

Lemma field_row_without_cells_is_rejected_witness :
  add_field_format Fixture.externals [] (Fixture.compile [["d"; "format"; "delimited"]]).2
  = (Raised (mkException FieldSyntaxError (MsgFieldRowEmpty _ID_FIELD_RULE)
               (Some (mkLocation "icd" 2 1 true)) None None),
     (Fixture.compile [["d"; "format"; "delimited"]]).2).
Proof.
  apply (field_row_without_cells_is_rejected Fixture.externals
           (Fixture.compile [["d"; "format"; "delimited"]]).2 (mkDataFormat "delimited" [])).
  - apply fixture_compile_reachable.
  - vm_compute. reflexivity.
  - vm_compute. reflexivity.
Defined.

(** ** Check rows that are accepted *)

(** X9.  A check row whose type and rule were found, whose class accepts it
    and whose description is new is accepted: [add_check] returns, the
    description is the last of the check names, and [check_for] returns for
    it a check of the class found, with the rule of the row, the field names
    defined so far and the cursor of the row; fields and data format are as
    before. *)
Theorem accepted_check_is_found X items self l check_description check_type check_rule
    check_class :
  reachable X self → _location self = Some l →
  read_check_items items self = (Returned (check_description, check_type, check_rule), self) →
  _check_name_to_class_map self !! (check_type +:+ "Check") = Some check_class →
  check_init X check_class check_description check_rule (_field_names self) (Some l) = None →
  check_description ∉ _check_names self →
  ∃ self',
    add_check X items self = (Returned (), self')
    ∧ _check_names self' = _check_names self ++ [check_description]
    ∧ check_for check_description self'
      = (Returned (mkCheck check_class check_description check_rule (_field_names self)
                     (Some l)), self')
    ∧ fields_of self' = fields_of self
    ∧ _data_format self' = _data_format self.
Proof.
  intros Hreach Hl Hread Hclass Hinit Hnew.
  pose proof (reachable_consistent _ _ Hreach) as Hcons.
  destruct (read_check_items_inv _ _ _ _ _ _ Hread) as (_ & Htype & _).
  pose proof (create_check_class_resolves X self check_type check_class
                (reachable_dot_free _ _ Hreach) Hclass Htype) as Hcreate.
  assert (_check_name_to_check_map self !! check_description = None) as Hfresh.
  { destruct (_check_name_to_check_map self !! check_description) eqn:Hold; [|done].
    destruct Hnew. apply (check_map_names _ Hcons). by eexists. }
  eexists. split.
  { unfold add_check. rewrite (bind_returned _ _ _ _ _ Hread). simpl.
    rewrite bind_run. simpl. rewrite bind_run. unfold lift at 1. rewrite Hcreate.
    rewrite Hl, Hinit, bind_ret, bind_run, (on_location_run _ _ _ Hl).
    rewrite bind_run. simpl. rewrite Hfresh.
    rewrite bind_run. simpl. rewrite bind_run. simpl.
    rewrite length_app, map_size_insert_None by done. simpl.
    rewrite (check_map_count _ Hcons), Nat.add_1_r, Nat.eqb_refl. reflexivity. }
  simpl. split; [done|]. split; [|done].
  unfold check_for. rewrite bind_run. simpl. by rewrite lookup_insert_eq.
Qed.

Lemma accepted_check_is_found_witness :
  ∃ self',
    add_check Fixture.externals ["desc1"; "IsUnique"; "id"]
      (Fixture.compile [["d"; "format"; "delimited"]; ["f"; "id"]]).2
    = (Returned (), self')
    ∧ _check_names self'
      = _check_names (Fixture.compile [["d"; "format"; "delimited"]; ["f"; "id"]]).2
        ++ ["desc1"]
    ∧ check_for "desc1" self'
      = (Returned (mkCheck (mkClass "IsUniqueCheck" "cutplace.checks" (SourcePath "checks.py"))
                     "desc1" "id"
                     (_field_names
                        (Fixture.compile [["d"; "format"; "delimited"]; ["f"; "id"]]).2)
                     (Some (mkLocation "icd" 3 1 true))), self')
    ∧ fields_of self'
      = fields_of (Fixture.compile [["d"; "format"; "delimited"]; ["f"; "id"]]).2
    ∧ _data_format self'
      = _data_format (Fixture.compile [["d"; "format"; "delimited"]; ["f"; "id"]]).2.
Proof.
  apply (accepted_check_is_found Fixture.externals ["desc1"; "IsUnique"; "id"]
           (Fixture.compile [["d"; "format"; "delimited"]; ["f"; "id"]]).2
           (mkLocation "icd" 3 1 true) "desc1" "IsUnique" "id"
           (mkClass "IsUniqueCheck" "cutplace.checks" (SourcePath "checks.py"))).
  - apply fixture_compile_reachable.
  - vm_compute. reflexivity.
  - vm_compute. reflexivity.
  - vm_compute. reflexivity.
  - reflexivity.
  - vm_compute. apply not_elem_of_nil.
Defined.

(** ** How [read] goes through the rows *)

(** X10.  [read] stops at the first row that raises: reading rows followed
    by more rows gives the exception and the object of reading the rows
    alone when that raises, and otherwise goes on with the further rows from
    the object the rows left. *)
Theorem read_stops_at_first_exception X source_path rows more self :
  read X source_path (rows ++ more) self
  = match read X source_path rows self with
    | (Returned _, self') => read_rows X more self'
    | (Raised e, self') => (Raised e, self')
    end.
Proof.
  unfold read. rewrite !bind_run. simpl. rewrite read_rows_app, bind_run.
  by destruct (read_rows X rows _) as [[[]|e] self'].
Qed.

Lemma lower_char_idempotent c : PyStr.lower_char (PyStr.lower_char c) = PyStr.lower_char c.
Proof. destruct c as [[] [] [] [] [] [] [] []]; reflexivity. Qed.

Lemma lower_idempotent s : PyStr.lower (PyStr.lower s) = PyStr.lower s.
Proof. induction s as [|c s IH]; simpl; [done|]. by rewrite lower_char_idempotent, IH. Qed.

(** X11.  The tag of a row counts in lower case: a row is read like the row
    with its tag in lower case. *)
Theorem row_tag_is_case_insensitive X tag cells :
  read_row X (tag :: cells) = read_row X (PyStr.lower tag :: cells).
Proof. unfold read_row. by rewrite lower_idempotent. Qed.

(** ** Data format rows *)

Lemma lower_empty s : PyStr.lower s = EmptyString ↔ s = EmptyString.
Proof. by destruct s. Qed.

Lemma eqb_lower_empty s :
  String.eqb (PyStr.lower s) EmptyString = String.eqb s EmptyString.
Proof. by destruct s. Qed.

(** What [read] does with a data format row, by its name and value. *)
Lemma read_row_data_format X tag name value more self :
  PyStr.lower tag = "d" →
  read_row X (tag :: name :: value :: more) self
  = ((on_location advance_cell;;
      (if String.eqb name EmptyString
       then raise_located DataFormatSyntaxError MsgDataFormatNameMissing
       else mret ());;
      on_location advance_cell;;
      self ← get_self;
      match _data_format self with
      | None =>
          data_format ← lift (new_DataFormat X (PyStr.lower value) (_location self));
          modify (set__data_format (Some data_format))
      | Some data_format =>
          data_format ← lift (set_property X data_format (PyStr.lower name)
                                (PyStr.lower value));
          modify (set__data_format (Some data_format))
      end);;
     on_location advance_line) self.
Proof. intros Htag. unfold read_row. rewrite Htag. reflexivity. Qed.

(** X12.  A data format row counts in lower case and by its first two cells
    after the tag: it is read like the row of [d], its name in lower case
    and its value in lower case. *)
Theorem data_format_row_is_case_insensitive X tag name value more self :
  PyStr.lower tag = "d" →
  read_row X (tag :: name :: value :: more) self
  = read_row X ["d"; PyStr.lower name; PyStr.lower value] self.
Proof.
  intros Htag.
  rewrite (read_row_data_format X tag name value more self Htag).
  rewrite (read_row_data_format X "d" (PyStr.lower name) (PyStr.lower value) [] self eq_refl).
  by rewrite eqb_lower_empty, !lower_idempotent.
Qed.

Lemma data_format_row_is_case_insensitive_witness :
  read_row Fixture.externals ["D"; "Format"; "Delimited"; "ignored"] Fixture.cid
  = read_row Fixture.externals ["d"; PyStr.lower "Format"; PyStr.lower "Delimited"] Fixture.cid.
Proof.
  apply (data_format_row_is_case_insensitive Fixture.externals "D" "Format" "Delimited"
           ["ignored"] Fixture.cid).
  reflexivity.
Defined.

(** X13.  The first data format row makes the data format of its value,
    whatever its name is: as long as the object has no data format, two data
    format rows with names that are not empty and the same value are read
    alike. *)
Theorem first_data_format_row_ignores_its_name X tag name name' value more more' self :
  PyStr.lower tag = "d" →
  _data_format self = None →
  name ≠ EmptyString → name' ≠ EmptyString →
  read_row X (tag :: name :: value :: more) self
  = read_row X (tag :: name' :: value :: more') self.
Proof.
  intros Htag Hd Hname Hname'.
  rewrite !(read_row_data_format X tag _ value _ self Htag).
  apply String.eqb_neq in Hname, Hname'. rewrite Hname, Hname'.
  destruct (_location self) as [l|] eqn:Hl.
  - rewrite !bind_run, !(on_location_run _ _ _ Hl), !bind_ret, !bind_run.
    erewrite !on_location_run by reflexivity.
    rewrite !bind_run. simpl. by rewrite Hd.
  - rewrite !bind_run. unfold on_location. by rewrite Hl.
Qed.

Lemma first_data_format_row_ignores_its_name_witness :
  read_row Fixture.externals ["d"; "format"; "fixed"] Fixture.cid
  = read_row Fixture.externals ["d"; "encoding"; "fixed"] Fixture.cid.
Proof.
  apply (first_data_format_row_ignores_its_name Fixture.externals "d" "format" "encoding"
           "fixed" [] [] Fixture.cid).
  - reflexivity.
  - vm_compute. reflexivity.
  - discriminate.
  - discriminate.
Defined.

(** X14.  A data format row never touches fields or checks: whatever it
    returns or raises, both are as before. *)
Theorem data_format_row_keeps_fields_and_checks X tag cells self :
  PyStr.lower tag = "d" →
  fields_of (read_row X (tag :: cells) self).2 = fields_of self
  ∧ checks_of (read_row X (tag :: cells) self).2 = checks_of self.
Proof.
  intros Htag.
  assert (keeps (λ self, (fields_of self, checks_of self)) (read_row X (tag :: cells)))
    as Hkeeps.
  { unfold read_row. rewrite Htag. simpl String.eqb. cbv iota. solve_keeps. }
  specialize (Hkeeps self). split; [exact (f_equal fst Hkeeps)|exact (f_equal snd Hkeeps)].
Qed.

Lemma data_format_row_keeps_fields_and_checks_witness :
  fields_of
    (read_row Fixture.externals ["d"; "encoding"; "utf-8"]
       (Fixture.compile [["d"; "format"; "delimited"]; ["f"; "id"]]).2).2
  = fields_of (Fixture.compile [["d"; "format"; "delimited"]; ["f"; "id"]]).2.
Proof.
  apply (data_format_row_keeps_fields_and_checks Fixture.externals "d" ["encoding"; "utf-8"]
           (Fixture.compile [["d"; "format"; "delimited"]; ["f"; "id"]]).2).
  reflexivity.
Defined.

(** X15.  A data format row whose name cell is missing or empty raises a
    [DataFormatSyntaxError] with the cursor one cell on; nothing else of the
    object changes. *)
Theorem data_format_row_needs_a_name X tag cells self l :
  PyStr.lower tag = "d" →
  default EmptyString (cells !! 0) = EmptyString →
  _location self = Some l →
  read_row X (tag :: cells) self
  = (Raised (mkException DataFormatSyntaxError MsgDataFormatNameMissing
               (Some (advance_cell l)) None None),
     set__location (Some (advance_cell l)) self).
Proof.
  intros Htag Hname Hl. unfold read_row. rewrite Htag. simpl String.eqb. cbv iota.
  assert (∃ value, PyList.slice_to 2 (row_data_of (tag :: cells)) = [EmptyString; value])
    as [value ->].
  { destruct cells as [|name [|value more]]; simpl in Hname; subst; by eexists. }
  rewrite !bind_run, (on_location_run _ _ _ Hl). reflexivity.
Qed.

Lemma data_format_row_needs_a_name_witness :
  read_row Fixture.externals ["d"] (Fixture.compile []).2
  = (Raised (mkException DataFormatSyntaxError MsgDataFormatNameMissing
               (Some (advance_cell (mkLocation "icd" 1 1 true))) None None),
     set__location (Some (advance_cell (mkLocation "icd" 1 1 true))) (Fixture.compile []).2).
Proof.
  apply (data_format_row_needs_a_name Fixture.externals "d" [] (Fixture.compile []).2
           (mkLocation "icd" 1 1 true)).
  - reflexivity.
  - reflexivity.
  - vm_compute. reflexivity.
Defined.

(** ** Rows without a known tag, and the line of the cursor *)

(** X16.  A row whose tag in lower case is none of [d], [f], [c] and the
    empty string raises a [DataFormatSyntaxError] that quotes the tag in
    lower case, where the cursor stands, and leaves the object as it was; a
    row without cells or with an empty tag does nothing but advance the
    line, whatever its other cells hold. *)
Theorem row_with_unknown_tag_is_rejected X tag cells self :
  PyStr.lower tag ∉ ["d"; "f"; "c"; EmptyString] →
  read_row X (tag :: cells) self
  = (Raised (mkException DataFormatSyntaxError (MsgRowType (PyStr.lower tag))
               (_location self) None None), self)
  ∧ read_row X [] self = on_location advance_line self
  ∧ read_row X (EmptyString :: cells) self = on_location advance_line self.
Proof.
  intros Htag. split; [|done].
  unfold read_row.
  assert (String.eqb (PyStr.lower tag) "d" = false) as ->.
  { apply String.eqb_neq. intros Heq. apply Htag. rewrite Heq. apply list_elem_of_here. }
  assert (String.eqb (PyStr.lower tag) "f" = false) as ->.
  { apply String.eqb_neq. intros Heq. apply Htag. rewrite Heq.
    apply list_elem_of_further, list_elem_of_here. }
  assert (String.eqb (PyStr.lower tag) "c" = false) as ->.
  { apply String.eqb_neq. intros Heq. apply Htag. rewrite Heq.
    do 2 apply list_elem_of_further. apply list_elem_of_here. }
  assert (String.eqb (PyStr.lower tag) EmptyString = false) as ->.
  { apply String.eqb_neq. intros Heq. apply Htag. rewrite Heq.
    do 3 apply list_elem_of_further. apply list_elem_of_here. }
  reflexivity.
Qed.

Lemma row_with_unknown_tag_is_rejected_witness :
  read_row Fixture.externals ["X"; "y"] Fixture.cid
  = (Raised (mkException DataFormatSyntaxError (MsgRowType (PyStr.lower "X"))
               (_location Fixture.cid) None None), Fixture.cid).
Proof.
  apply (row_with_unknown_tag_is_rejected Fixture.externals "X" ["y"] Fixture.cid).
  intros Hin. apply list_elem_of_In in Hin. vm_compute in Hin.
  repeat (destruct Hin as [Hin|Hin]; [discriminate Hin|]). exact Hin.
Defined.

Lemma on_location_keeps_cursor_row method :
  (∀ l, (loc_path (method l), loc_line (method l), loc_has_cell (method l))
        = (loc_path l, loc_line l, loc_has_cell l)) →
  keeps cursor_row (on_location method).
Proof.
  intros Hmethod self. unfold on_location, cursor_row.
  destruct (_location self) as [l|] eqn:Hl; simpl; [|by rewrite Hl]. by rewrite Hmethod.
Qed.

(** Steps through a method body that moves the cursor within its row. *)
Ltac cursor_row_step :=
  lazymatch goal with
  | |- keeps _ (on_location _) => apply on_location_keeps_cursor_row; reflexivity
  | |- _ => keeps_step
  end.

Lemma add_field_format_keeps_cursor_row X items : keeps cursor_row (add_field_format X items).
Proof.
  unfold add_field_format, read_field_items, validate_unique_field_name, validate_example,
    validate_fixed_length, register_field.
  repeat cursor_row_step.
Qed.

Lemma add_check_keeps_cursor_row X items : keeps cursor_row (add_check X items).
Proof. unfold add_check, read_check_items. repeat cursor_row_step. Qed.

Lemma read_row_cursor X row self path line has_cell :
  cursor_row self = Some (path, line, has_cell) →
  match read_row X row self with
  | (Returned _, self') =>
      _location self' = Some (mkLocation path (S line) START_OF_ROW has_cell)
  | (Raised _, self') => cursor_row self' = Some (path, line, has_cell)
  end.
Proof.
  intros Hcursor. unfold read_row. rewrite bind_run.
  match goal with |- context [match ?body self with _ => _ end] => set (run := body) end.
  assert (keeps cursor_row run) as Hkeeps.
  { subst run. destruct row as [|tag cells]; [repeat cursor_row_step|].
    destruct (String.eqb (PyStr.lower tag) "d"); [repeat cursor_row_step|].
    destruct (String.eqb (PyStr.lower tag) "f"); [apply add_field_format_keeps_cursor_row|].
    destruct (String.eqb (PyStr.lower tag) "c"); [apply add_check_keeps_cursor_row|].
    repeat cursor_row_step. }
  specialize (Hkeeps self). rewrite Hcursor in Hkeeps.
  destruct (run self) as [[[]|e] self1]; simpl in Hkeeps; [|done].
  unfold cursor_row in Hkeeps. unfold on_location.
  destruct (_location self1) as [l1|]; simpl in *; [|done].
  injection Hkeeps as <- <- <-. reflexivity.
Qed.

Lemma read_rows_cursor X rows self path line has_cell :
  _location self = Some (mkLocation path line START_OF_ROW has_cell) →
  match read_rows X rows self with
  | (Returned _, self') =>
      _location self' = Some (mkLocation path (line + length rows) START_OF_ROW has_cell)
  | (Raised _, self') =>
      ∃ before row after,
        rows = before ++ row :: after
        ∧ (∃ reached, read_rows X before self = (Returned (), reached))
        ∧ cursor_row self' = Some (path, line + length before, has_cell)
  end.
Proof.
  revert self line. induction rows as [|row rows IH]; intros self line Hl; simpl.
  - by rewrite Nat.add_0_r.
  - rewrite bind_run.
    assert (cursor_row self = Some (path, line, has_cell)) as Hcursor
      by (unfold cursor_row; by rewrite Hl).
    pose proof (read_row_cursor X row self path line has_cell Hcursor) as Hrow.
    destruct (read_row X row self) as [[[]|e] self1] eqn:Hrun.
    + specialize (IH self1 (S line) Hrow).
      destruct (read_rows X rows self1) as [[[]|e] self2].
      * rewrite IH. do 2 f_equal. lia.
      * destruct IH as (before & failing & after & -> & [reached Hreached] & Hcursor2).
        exists (row :: before), failing, after. split; [done|]. split.
        -- exists reached. simpl. by rewrite bind_run, Hrun.
        -- rewrite Hcursor2. simpl. do 3 f_equal. lia.
    + exists [], row, rows. split; [done|]. split; [by exists self|].
      simpl. by rewrite Nat.add_0_r.
Qed.

(** X17.  When [read] returns, the cursor stands at the start of the line
    after the last row: the line is the number of rows above the first
    line, blank rows included. *)
Theorem read_counts_the_rows X source_path rows self self' :
  read X source_path rows self = (Returned (), self') →
  _location self' = Some (mkLocation source_path (1 + length rows) START_OF_ROW true).
Proof.
  unfold read. rewrite bind_run. simpl. intros Hrun.
  pose proof (read_rows_cursor X rows (set__location (Some (new_InputLocation source_path true))
                                         self) source_path 1 true eq_refl) as Hcursor.
  rewrite Hrun in Hcursor. exact Hcursor.
Qed.

Lemma read_counts_the_rows_witness :
  _location (Fixture.compile [["d"; "format"; "delimited"]; []; ["f"; "id"]]).2
  = Some (mkLocation "icd" (1 + 3) START_OF_ROW true).
Proof.
  apply (read_counts_the_rows Fixture.externals "icd"
           [["d"; "format"; "delimited"]; []; ["f"; "id"]] Fixture.cid).
  vm_compute. reflexivity.
Defined.

(** X18.  When [read] raises, the rows before one of the rows were read
    and the cursor is left on the line of that row: its line is the number of
    those rows above the first line. *)
Theorem read_leaves_cursor_on_the_row_that_raised X source_path rows self e self' :
  read X source_path rows self = (Raised e, self') →
  ∃ before row after,
    rows = before ++ row :: after
    ∧ (∃ reached, read X source_path before self = (Returned (), reached))
    ∧ cursor_row self' = Some (source_path, 1 + length before, true).
Proof.
  unfold read. rewrite bind_run. simpl. intros Hrun.
  pose proof (read_rows_cursor X rows (set__location (Some (new_InputLocation source_path true))
                                         self) source_path 1 true eq_refl) as Hcursor.
  rewrite Hrun in Hcursor.
  destruct Hcursor as (before & row & after & -> & [reached Hreached] & Hcursor).
  exists before, row, after. split; [done|]. split; [|done].
  exists reached. by rewrite bind_run.
Qed.

Lemma read_leaves_cursor_on_the_row_that_raised_witness :
  ∃ before row after,
    [["d"; "format"; "delimited"]; ["f"; "id"]; ["f"; "id"]; ["f"; "name"]]
    = before ++ row :: after
    ∧ (∃ reached, read Fixture.externals "icd" before Fixture.cid = (Returned (), reached))
    ∧ cursor_row
        (Fixture.compile
           [["d"; "format"; "delimited"]; ["f"; "id"]; ["f"; "id"]; ["f"; "name"]]).2
      = Some ("icd", 1 + length before, true).
Proof.
  eapply (read_leaves_cursor_on_the_row_that_raised Fixture.externals "icd"
            [["d"; "format"; "delimited"]; ["f"; "id"]; ["f"; "id"]; ["f"; "name"]]
            Fixture.cid).
  vm_compute. reflexivity.
Defined.

(** ** [_tools.py] *)

Lemma string_append_assoc (a b c : string) : (a +:+ b) +:+ c = a +:+ b +:+ c.
Proof.
  induction a as [|x a IH]; [done|].
  change (String x ((a +:+ b) +:+ c) = String x (a +:+ b +:+ c)). by rewrite IH.
Qed.

Lemma humanReadableList_tail X itemCount last_item middle k joined :
  1 ≤ k → k + length middle = itemCount - 1 →
  fold_left (humanReadableList_step X itemCount)
    (zip (seq k (length (middle ++ [last_item]))) (middle ++ [last_item])) joined
  = fold_left (λ joined t, joined +:+ ", " +:+ t) (repr X <$> middle) joined
    +:+ " or " +:+ repr X last_item.
Proof.
  revert k joined. induction middle as [|item middle IH]; intros k joined Hk Hcount.
  - simpl in *. rewrite Nat.add_0_r in Hcount. subst k. rewrite Nat.eqb_refl.
    apply string_append_assoc.
  - simpl in *.
    destruct (Nat.eqb_spec k (itemCount - 1)) as [|_]; [lia|].
    destruct (Nat.ltb_spec 0 k) as [_|]; [|lia].
    rewrite IH by lia. by rewrite string_append_assoc.
Qed.

(** X19.  [humanReadableList] joins the [repr] of its items with commas and
    puts [or] before the last: nothing for no item, the item for one, and
    for more the items but the last joined by [", "], then [" or "], then
    the last. *)
Theorem humanReadableList_joins_with_commas_and_or X first_item middle last_item :
  humanReadableList X [] = EmptyString
  ∧ humanReadableList X [first_item] = repr X first_item
  ∧ humanReadableList X (first_item :: middle ++ [last_item])
    = joined_by ", " (repr X <$> first_item :: middle) +:+ " or " +:+ repr X last_item.
Proof.
  split; [done|]. split; [done|].
  unfold humanReadableList, joined_by.
  assert (∃ second rest, middle ++ [last_item] = second :: rest) as (second & rest & Heq).
  { destruct middle; simpl; by eexists _, _. }
  rewrite Heq. rewrite <- Heq. simpl fmap.
  change (length (first_item :: middle ++ [last_item]))
    with (S (length (middle ++ [last_item]))).
  cbn [seq zip zip_with fold_left].
  assert (humanReadableList_step X (S (length (middle ++ [last_item]))) EmptyString
            (0, first_item) = repr X first_item) as ->.
  { unfold humanReadableList_step. rewrite length_app. simpl.
    replace (length middle + 1 - 0) with (S (length middle)) by lia. done. }
  apply humanReadableList_tail; [done|]. rewrite length_app. simpl. lia.
Qed.

Lemma rstrip_idempotent s : PyStr.rstrip (PyStr.rstrip s) = PyStr.rstrip s.
Proof.
  induction s as [|c s IH]; [done|]. simpl.
  destruct (PyStr.rstrip s) as [|d r] eqn:Hr.
  - destruct (PyStr.is_space c) eqn:Hc; [done|]. simpl. by rewrite Hc.
  - change (PyStr.rstrip (String c (String d r)))
      with (match PyStr.rstrip (String d r) with
            | EmptyString => if PyStr.is_space c then EmptyString else String c EmptyString
            | r' => String c r'
            end).
    by rewrite IH.
Qed.

Lemma rstrip_keeps_head c s :
  PyStr.is_space c = false → ∃ r, PyStr.rstrip (String c s) = String c r.
Proof.
  intros Hc. simpl. destruct (PyStr.rstrip s); [rewrite Hc|]; by eexists.
Qed.

Lemma lstrip_head s :
  PyStr.lstrip s = EmptyString
  ∨ ∃ c s', PyStr.lstrip s = String c s' ∧ PyStr.is_space c = false.
Proof.
  induction s as [|c s IH]; [by left|]. simpl.
  destruct (PyStr.is_space c) eqn:Hc; [done|]. right. by exists c, s.
Qed.

Lemma strip_idempotent s : PyStr.strip (PyStr.strip s) = PyStr.strip s.
Proof.
  unfold PyStr.strip. destruct (lstrip_head s) as [->|(c & s' & -> & Hc)]; [done|].
  destruct (rstrip_keeps_head c s' Hc) as [r Hr].
  assert (PyStr.lstrip (PyStr.rstrip (String c s')) = PyStr.rstrip (String c s')) as ->.
  { rewrite Hr. simpl. by rewrite Hc. }
  apply rstrip_idempotent.
Qed.

(** X20.  [validatedPythonName] looks at the value without the white space
    around it: it returns a name for a value exactly when it returns that
    name for the stripped value. *)
Theorem validatedPythonName_ignores_outer_space X name value validated :
  validatedPythonName X name value = Returned validated
  ↔ validatedPythonName X name (PyStr.strip value) = Returned validated.
Proof.
  unfold validatedPythonName. rewrite strip_idempotent.
  destruct (assert_pure (PyStr.truthy name)) as [[]|e]; simpl; [|done].
  destruct (generate_tokens X (PyStr.strip value)) as [|[nextType result] toky']; [done|].
  destruct (ISEOF nextType); [done|]. destruct (is_NAME nextType); simpl; [|done].
  destruct toky' as [|[secondTokenType secondTokenText] ?]; [done|].
  by destruct (ISEOF secondTokenType).
Qed.

Lemma List_filter_sublist {A} (f : A → bool) (l : list A) : List.filter f l `sublist_of` l.
Proof.
  induction l as [|x l IH]; simpl; [constructor|].
  destruct (f x); by constructor.
Qed.

(** X21.  [tokenizeWithoutSpace] yields tokens of the tokenizer in their
    order; it keeps every end marker, and of the other tokens exactly those
    that are no indent and whose text is not blank. *)
Theorem tokenizeWithoutSpace_keeps_end_marker_and_drops_space X text :
  tokenizeWithoutSpace X text `sublist_of` generate_tokens X text
  ∧ ∀ toky, toky ∈ generate_tokens X text →
      if isEofToken toky then toky ∈ tokenizeWithoutSpace X text
      else toky ∈ tokenizeWithoutSpace X text
           ↔ toky.1 ≠ INDENT ∧ PyStr.strip toky.2 ≠ EmptyString.
Proof.
  unfold tokenizeWithoutSpace. split; [apply List_filter_sublist|].
  intros [tokyType tokyText] Hin. unfold isEofToken. simpl.
  destruct (ISEOF tokyType) eqn:Heof.
  - apply list_elem_of_In, filter_In. split; [by apply list_elem_of_In|].
    unfold is_yielded. simpl. destruct tokyType; try discriminate Heof.
    apply orb_true_r.
  - rewrite list_elem_of_In, filter_In, <- list_elem_of_In. unfold is_yielded. simpl.
    split.
    + intros [_ Hyielded]. destruct tokyType; try discriminate Heof; simpl in Hyielded;
        (split; [done|]); by destruct (PyStr.strip tokyText).
    + intros [Hindent Hblank]. split; [done|].
      destruct tokyType; try discriminate Heof; try done; simpl;
        destruct (PyStr.strip tokyText); done.
Qed.

Lemma without_last_snoc inside closing :
  without_last (inside +:+ String closing EmptyString) = inside.
Proof.
  induction inside as [|c inside IH]; [done|].
  change (without_last (String c (inside +:+ String closing EmptyString)) = String c inside).
  simpl. rewrite IH. by destruct inside.
Qed.

(** X22.  [tokenText] gives the text of a string token without its first
    and its last character, whatever they are and whatever is between them,
    gives nothing for a string token of at most two characters, and gives
    the text of any other token as it is. *)
Theorem tokenText_strips_the_quotes_of_strings opening inside closing tokyType tokyText :
  tokenText (STRING, String opening (inside +:+ String closing EmptyString)) = inside
  ∧ ((String.length tokyText ≤ 2)%nat → tokenText (STRING, tokyText) = EmptyString)
  ∧ (tokyType ≠ STRING → tokenText (tokyType, tokyText) = tokyText).
Proof.
  split; [apply without_last_snoc|]. split.
  - intros Hlength. destruct tokyText as [|a [|b [|c ?]]]; simpl in *; try done. lia.
  - intros Hother. by destruct tokyType.
Qed.

(** ** [sql.py] *)

Lemma string_cons_append c s t : String c s +:+ t = String c (s +:+ t).
Proof. done. Qed.

Lemma string_length_append s t : String.length (s +:+ t) = (String.length s + String.length t)%nat.
Proof. induction s as [|c s IH]; [done|]. rewrite string_cons_append. simpl. by rewrite IH. Qed.

Lemma string_append_cancel_r s t u : s +:+ u = t +:+ u → s = t.
Proof.
  revert t. induction s as [|c s IH]; intros [|d t] Heq; [done| | |].
  - apply (f_equal String.length) in Heq. rewrite !string_length_append in Heq.
    simpl in Heq. lia.
  - apply (f_equal String.length) in Heq. rewrite !string_length_append in Heq.
    simpl in Heq. lia.
  - rewrite !string_cons_append in Heq. injection Heq as -> Heq. f_equal. by apply IH.
Qed.

Lemma replace_apostrophe_inj s t :
  Sql.replace Sql.apostrophe "''" s = Sql.replace Sql.apostrophe "''" t → s = t.
Proof.
  revert t. induction s as [|c s IH]; intros [|d t]; simpl.
  - done.
  - destruct (Ascii.eqb d Sql.apostrophe); discriminate.
  - destruct (Ascii.eqb c Sql.apostrophe); discriminate.
  - destruct (Ascii.eqb_spec c Sql.apostrophe) as [->|Hc],
             (Ascii.eqb_spec d Sql.apostrophe) as [->|Hd].
    + rewrite !string_cons_append. intros [= Heq]. f_equal. by apply IH.
    + rewrite !string_cons_append. intros [= Heq _]. by destruct Hd.
    + rewrite !string_cons_append. intros [= Heq _]. by destruct Hc.
    + intros [= -> Heq]. f_equal. by apply IH.
Qed.

(** X23.  [sql_escaped] loses nothing of a text: two texts with the same
    escaped form are the same text. *)
Theorem sql_escaped_is_injective text1 text2 :
  Sql.sql_escaped text1 = Sql.sql_escaped text2 → text1 = text2.
Proof.
  unfold Sql.sql_escaped. rewrite !string_cons_append. intros [= Heq].
  change (EmptyString +:+ ?s) with s in Heq.
  by apply replace_apostrophe_inj, (string_append_cancel_r _ _ "'").
Qed.

Lemma sql_escaped_is_injective_witness : "it's" = "it's".
Proof. apply (sql_escaped_is_injective "it's" "it's"). vm_compute. reflexivity. Defined.


Lemma second_item_returned name numbers length :
  Sql.second_item (name, numbers) = Returned length → ∃ rest, numbers = length :: rest.
Proof.
  unfold Sql.second_item, item_at. simpl. destruct numbers as [|n rest]; simpl; [done|].
  intros [= ->]. by exists rest.
Qed.

(** X24.  What [MSSqlDialect.sql_type] returns it returns again when given
    its own result, and an [int] in its result has more than 15 and at most
    31 bits. *)
Theorem mssql_type_is_stable_and_int_fits sql_ansi_type result :
  Sql.MSSqlDialect_sql_type sql_ansi_type = Returned result →
  Sql.MSSqlDialect_sql_type result = Returned result
  ∧ (result.1 = "int" → ∃ length, result.2 = [length] ∧ (15 < length ≤ 31)%Z).
Proof.
  destruct sql_ansi_type as [ansi_type numbers]. unfold Sql.MSSqlDialect_sql_type at 1. simpl.
  destruct (String.eqb_spec ansi_type "int") as [->|Hother].
  - destruct (Sql.second_item ("int", numbers)) as [length|e] eqn:Hlength; simpl; [|done].
    destruct (Z.leb_spec length 15); [intros [= <-]; split; [done|done]|].
    destruct (Z.leb_spec length 31).
    + intros [= <-]. split.
      * unfold Sql.MSSqlDialect_sql_type, Sql.second_item, item_at. simpl.
        destruct (Z.leb_spec length 15); [lia|]. by destruct (Z.leb_spec length 31); [|lia].
      * intros _. exists length. split; [done|lia].
    + destruct (Z.leb_spec length 63); intros [= <-]; split; done.
  - intros [= <-]. split.
    + unfold Sql.MSSqlDialect_sql_type. simpl.
      by destruct (String.eqb_spec ansi_type "int").
    + done.
Qed.

Lemma mssql_type_is_stable_and_int_fits_witness :
  Sql.MSSqlDialect_sql_type ("int", [20%Z]) = Returned ("int", [20%Z])
  ∧ (("int", [20%Z]).1 = "int" → ∃ length, ("int", [20%Z]).2 = [length] ∧ (15 < length ≤ 31)%Z).
Proof.
  apply (mssql_type_is_stable_and_int_fits ("int", [20%Z; 7%Z]) ("int", [20%Z])).
  vm_compute. reflexivity.
Defined.

(** X25.  What [OracleSqlDialect.sql_type] returns it returns again when
    given its own result; the result is never a [decimal] or a [varchar],
    and an [int] in it has at most 31 bits. *)
Theorem oracle_type_is_stable_and_translated sql_ansi_type result :
  Sql.OracleSqlDialect_sql_type sql_ansi_type = Returned result →
  Sql.OracleSqlDialect_sql_type result = Returned result
  ∧ result.1 ≠ "decimal" ∧ result.1 ≠ "varchar"
  ∧ (result.1 = "int" → ∃ length rest, result.2 = length :: rest ∧ (length ≤ 31)%Z).
Proof.
  destruct sql_ansi_type as [ansi_type numbers]. unfold Sql.OracleSqlDialect_sql_type at 1. simpl.
  destruct (String.eqb_spec ansi_type "decimal") as [->|Hdecimal].
  { destruct numbers as [|scale [|precision [|? ?]]]; try done.
    intros [= <-]. by repeat split. }
  destruct (String.eqb_spec ansi_type "varchar") as [->|Hvarchar].
  { destruct (Sql.second_item ("varchar", numbers)) as [length|e]; simpl; [|done].
    intros [= <-]. by repeat split. }
  destruct (String.eqb_spec ansi_type "int") as [->|Hint].
  - destruct (Sql.second_item ("int", numbers)) as [length|e] eqn:Hlength; simpl; [|done].
    destruct (Z.ltb_spec 31 length); intros [= <-]; [by repeat split|].
    apply second_item_returned in Hlength as [rest ->].
    split; [|split; [done|split; [done|]]].
    + unfold Sql.OracleSqlDialect_sql_type, Sql.second_item, item_at. simpl.
      by destruct (Z.ltb_spec 31 length); [lia|].
    + intros _. by exists length, rest.
  - intros [= <-]. split; [|by repeat split].
    unfold Sql.OracleSqlDialect_sql_type. simpl.
    destruct (String.eqb_spec ansi_type "decimal"); [done|].
    destruct (String.eqb_spec ansi_type "varchar"); [done|].
    by destruct (String.eqb_spec ansi_type "int").
Qed.

Lemma oracle_type_is_stable_and_translated_witness :
  Sql.OracleSqlDialect_sql_type ("number", [10%Z; 2%Z]) = Returned ("number", [10%Z; 2%Z])
  ∧ ("number", [10%Z; 2%Z]).1 ≠ "decimal" ∧ ("number", [10%Z; 2%Z]).1 ≠ "varchar"
  ∧ (("number", [10%Z; 2%Z]).1 = "int" →
     ∃ length rest, ("number", [10%Z; 2%Z]).2 = length :: rest ∧ (length ≤ 31)%Z).
Proof.
  apply (oracle_type_is_stable_and_translated ("decimal", [10%Z; 2%Z]) ("number", [10%Z; 2%Z])).
  vm_compute. reflexivity.
Defined.

(** X26.  [MSSqlDialect.sql_type] raises only for an [int] without a
    length, and then [IndexError]; every other type gets a result. *)
Theorem mssql_type_raises_only_without_length sql_ansi_type e :
  Sql.MSSqlDialect_sql_type sql_ansi_type = Raised e →
  sql_ansi_type = ("int", []) ∧ exc_class e = IndexError.
Proof.
  destruct sql_ansi_type as [ansi_type numbers]. unfold Sql.MSSqlDialect_sql_type. simpl.
  destruct (String.eqb_spec ansi_type "int") as [->|Hother]; [|done].
  unfold Sql.second_item, item_at. simpl. destruct numbers as [|length rest]; simpl.
  - by intros [= <-].
  - destruct (Z.leb_spec length 15); [done|]. destruct (Z.leb_spec length 31); [done|].
    by destruct (Z.leb_spec length 63).
Qed.

Lemma mssql_type_raises_only_without_length_witness :
  ("int", @nil Z) = ("int", []) ∧ exc_class (mkException IndexError MsgNone None None None) = IndexError.
Proof.
  apply (mssql_type_raises_only_without_length ("int", [])). vm_compute. reflexivity.
Defined.

(** X27.  [generate_choices] returns for no rule: the module [_tools] has no
    [tokenize_without_space], so the first statement that uses it raises
    [AttributeError]. *)
Theorem generate_choices_raises_AttributeError X rule :
  Sql.generate_choices X rule = no_attribute "tokenize_without_space".
Proof. reflexivity. Qed.
